(** * A shallow embedding of the SAML identity-provider issuance code

    The development follows the two Go packages of the repository:
    - [xmlsec]: the wrapper around the [xmlsec1] command
      (Encrypt, Decrypt, Verify, Sign, xmlsecErr, applyOptions);
    - [saml]: the identity-provider side (MakeAssertion, MarshalAssertion,
      MakeResponse, GetSPCertFile, GetSPMetadata, IsSecurityException).

    Go strings and byte slices are sequences of bytes; both are [string]
    here (a list of 8-bit characters).  A Go [error] that may be [nil] is
    an [option error]; a function that returns either a value or an error
    returns a sum.  Everything the code asks of the operating system
    (child processes, files, the network, the clock) is read from an
    explicit record of answers, so that every function of the source is a
    total, executable function of its inputs and of those answers. *)

From Stdlib Require Import List Ascii String Bool Arith Lia ZArith.
Import ListNotations.
Open Scope string_scope.
Open Scope bool_scope.

(** ** The pieces of Go's [strings], [bytes] and [unicode] that the code uses *)

Module strings.

(** [strings.HasPrefix(s, prefix)]. *)
Fixpoint HasPrefix (s prefix : string) {struct prefix} : bool :=
  match prefix with
  | "" => true
  | String p prefix' =>
      match s with
      | "" => false
      | String c s' => if Ascii.eqb c p then HasPrefix s' prefix' else false
      end
  end.

(** [strings.Contains(s, substr)] and [bytes.Contains]: some suffix of [s]
    starts with [substr]. *)
Fixpoint Contains (s substr : string) : bool :=
  match s with
  | "" => HasPrefix "" substr
  | String _ s' => HasPrefix s substr || Contains s' substr
  end.

Definition byte (n : nat) : ascii := ascii_of_nat n.

Fixpoint bytes (l : list nat) : string :=
  match l with
  | [] => ""
  | n :: l' => String (byte n) (bytes l')
  end.

(** The white space of [unicode.IsSpace], as UTF-8: the six ASCII
    characters, U+0085, U+00A0, and the characters of the White_Space
    property above Latin-1 (U+1680, U+2000..U+200A, U+2028, U+2029, U+202F,
    U+205F, U+3000). *)
Definition spaceRunes : list string :=
  map bytes
    [ [9]; [10]; [11]; [12]; [13]; [32];
      [194; 133]; [194; 160];
      [225; 154; 128];
      [226; 128; 128]; [226; 128; 129]; [226; 128; 130]; [226; 128; 131];
      [226; 128; 132]; [226; 128; 133]; [226; 128; 134]; [226; 128; 135];
      [226; 128; 136]; [226; 128; 137]; [226; 128; 138];
      [226; 128; 168]; [226; 128; 169]; [226; 128; 175];
      [226; 129; 159];
      [227; 128; 128] ].

Fixpoint reverse (s : string) : string :=
  match s with
  | "" => ""
  | String c s' => reverse s' ++ String c ""
  end.

(** [s] without its first [n] bytes. *)
Fixpoint skip (n : nat) (s : string) : string :=
  match n, s with
  | S n', String _ s' => skip n' s'
  | _, _ => s
  end.

(** The encoding of a white-space character that [s] starts with, if any:
    what [utf8.DecodeRuneInString] followed by [unicode.IsSpace] finds. *)
Definition leadingSpace (runes : list string) (s : string) : option string :=
  find (HasPrefix s) runes.

(** [strings.TrimPrefix]: [s[len(prefix):]] when [s] starts with [prefix]. *)
Definition TrimPrefix (s prefix : string) : string :=
  if HasPrefix s prefix then skip (length prefix) s else s.

(** [strings.TrimLeftFunc(s, unicode.IsSpace)]: drop white-space characters
    while the string starts with one.  [fuel] bounds the number of
    characters dropped; the length of [s] is always enough. *)
Fixpoint trimLeft (runes : list string) (fuel : nat) (s : string) : string :=
  match fuel with
  | O => s
  | S fuel' =>
      match leadingSpace runes s with
      | Some r => trimLeft runes fuel' (skip (length r) s)
      | None => s
      end
  end.

Definition TrimLeftSpace (s : string) : string :=
  trimLeft spaceRunes (length s) s.

(** [strings.TrimRightFunc(s, unicode.IsSpace)] scans from the end with
    [utf8.DecodeLastRuneInString]: the same loop on the reversed string,
    against the reversed encodings. *)
Definition TrimRightSpace (s : string) : string :=
  reverse (trimLeft (map reverse spaceRunes) (length s) (reverse s)).

(** [strings.TrimSpace]. *)
Definition TrimSpace (s : string) : string :=
  TrimRightSpace (TrimLeftSpace s).

End strings.

Module bytes.

(** [bytes.Contains]. *)
Definition Contains (b subslice : string) : bool := strings.Contains b subslice.

(** [bytes.TrimPrefix]. *)
Definition TrimPrefix (b prefix : string) : string := strings.TrimPrefix b prefix.

(** [bytes.TrimSpace]: as [strings.TrimSpace], but the result is the nil
    slice ([None]) when nothing is left. *)
Definition TrimSpace (b : string) : option string :=
  match strings.TrimSpace b with
  | "" => None
  | t => Some t
  end.

End bytes.

(** ** Go's [error] values

    The dynamic type of an error is its outermost constructor: a type
    assertion [err.(T)] looks at nothing else. *)

Inductive error : Type :=
| errorString (msg : string)              (* fmt.Errorf *)
| fundamental (msg : string)              (* errors.New of github.com/pkg/errors *)
| ErrSelfSignedCertificate (err : error)  (* xmlsec.ErrSelfSignedCertificate{err} *)
| ErrUnknownIssuer (err : error)          (* xmlsec.ErrUnknownIssuer{err} *)
| ErrValidityError (err : error)          (* xmlsec.ErrValidityError{err} *)
| withMessage (cause : error) (msg : string) (* errors.Wrap(cause, msg) *)
| osError (msg : string).                 (* a failure reported from outside the two packages:
                                             os/exec, io, net/http, encoding/xml, the file helpers *)

(** The [Error() string] method. *)
Fixpoint Error (e : error) : string :=
  match e with
  | errorString msg => msg
  | fundamental msg => msg
  | ErrSelfSignedCertificate err => Error err
  | ErrUnknownIssuer err => Error err
  | ErrValidityError err => Error err
  | withMessage cause msg => msg ++ ": " ++ Error cause
  | osError msg => msg
  end.

(** An answer of the outside world is [None] or the text of a failure; the
    error handed to the code is an [osError]. *)
Definition failed (answer : option string) : option error :=
  option_map osError answer.

(** ** Package xmlsec *)

Module xmlsec.

Definition attrNameResponse := "urn:oasis:names:tc:SAML:2.0:protocol:Response".
Definition attrNameAssertion := "urn:oasis:names:tc:SAML:2.0:assertion:Assertion".
Definition attrNameAuthnRequest := "urn:oasis:names:tc:SAML:2.0:protocol:AuthnRequest".

Record ValidationOptions := {
  DTDFile : string;
  EnableIDAttrHack : bool;
  IDAttrs : list string
}.

(** The template handed to [Encrypt].  Its declaration is not part of the
    sources at hand; the two algorithm names given to
    [NewEncryptedDataTemplate] are all the code says about it. *)
Record EncryptedData := {
  EncryptionMethod : string;
  KeyTransportMethod : string
}.

Definition NewEncryptedDataTemplate (method keyTransport : string) : EncryptedData :=
  {| EncryptionMethod := method; KeyTransportMethod := keyTransport |}.

(** One run of a child process, as the parent sees it: the failure (or
    [None]) of every call made on the [exec.Cmd] and its pipes, and what
    the two readers deliver. *)
Record Process := {
  cmd_StdinPipe : option string;
  cmd_StdoutPipe : option string;
  cmd_StderrPipe : option string;
  cmd_Start : option string;
  stdin_Write : option string;
  stdin_Close : option string;
  stdout_ReadAll : string * option string;
  stderr_ReadAll : string * option string;
  cmd_Wait : option string
}.

(** What the operating system answers to the package. *)
Record OS := {
  (* exec.Command(name, args...) run with [input] written to its stdin *)
  exec_Command : string -> list string -> string -> Process;
  (* ioutil.TempFile(dir, pattern): the file's name *)
  ioutil_TempFile : string -> string -> string * option string;
  (* fp.Write and fp.Close on the file of that name *)
  file_Write : string -> string -> option string;
  file_Close : string -> option string;
  (* xml.MarshalIndent on a template *)
  xml_MarshalIndent : EncryptedData -> string * option string
}.

Definition isValidityError (output : string) : bool :=
  bytes.Contains output "validity error".

Definition xmlsecErr (s : string) : option error :=
  let err := errorString ("xmlsec: " ++ strings.TrimSpace s) in
  if strings.HasPrefix s "OK" then None
  else if strings.Contains (Error err) "signature failed" then Some err
  else if strings.Contains (Error err) "validity error" then Some (ErrValidityError err)
  else if strings.Contains (Error err) "msg=self signed certificate" then
    Some (ErrSelfSignedCertificate err)
  else if strings.Contains (Error err) "msg=unable to get local issuer certificate" then
    Some (ErrUnknownIssuer err)
  else Some err.

(** Go's built-in [append(slice, elems...)]. *)
Definition append {A : Type} (slice elems : list A) : list A := (slice ++ elems)%list.

(** [applyOptions(&args, opts)]; a nil [opts] is [None]. *)
Definition applyOptions (args : list string) (opts : option ValidationOptions) : list string :=
  match opts with
  | None => args
  | Some opts =>
      let args :=
        if negb (opts.(DTDFile) =? "") then append args ["--dtd-file"; opts.(DTDFile)]
        else args in
      if opts.(EnableIDAttrHack) then
        fold_left (fun args v => append args ["--id-attr:ID"; v]) opts.(IDAttrs)
          (append args ["--id-attr:ID"; attrNameResponse;
                        "--id-attr:ID"; attrNameAssertion;
                        "--id-attr:ID"; attrNameAuthnRequest])
      else args
  end.

(** The newline between the two streams in [string(res) + "\n" + string(resErr)]. *)
Definition newline : string := String (strings.byte 10) "".

(** The argument vector that [Verify] builds before [exec.Command(args[0], args[1:]...)]. *)
Definition Verify_args (publicCertPath : string) (opts : option ValidationOptions) : list string :=
  let args := ["xmlsec1"; "--verify";
               "--pubkey-cert-pem"; publicCertPath;
               "--enabled-reference-uris"; "empty,same-doc"] in
  let args := applyOptions args opts in
  append args ["/dev/stdin"].

(** The argument vector that [Sign] builds. *)
Definition Sign_args (privateKeyPath : string) (opts : option ValidationOptions) : list string :=
  let args := ["xmlsec1"; "--sign";
               "--privkey-pem"; privateKeyPath;
               "--enabled-reference-uris"; "empty,same-doc"] in
  let args := applyOptions args opts in
  append args ["--output"; "/dev/stdout"; "/dev/stdin"].

(** [exec.Command(args[0], args[1:]...)]. *)
Definition Command (os : OS) (args : list string) (input : string) : Process :=
  exec_Command os (hd "" args) (tl args) input.

(** Verify takes a signed XML document and validates its signature.
    [Verify_result] is the function from [cmd.StdinPipe()] on. *)
Definition Verify_result (cmd : Process) : option error :=
  match cmd_StdinPipe cmd with Some err => Some (osError err) | None =>
  match cmd_StdoutPipe cmd with Some err => Some (osError err) | None =>
  match cmd_StderrPipe cmd with Some err => Some (osError err) | None =>
  match cmd_Start cmd with Some err => Some (osError err) | None =>
  match stdin_Write cmd with Some err => Some (osError err) | None =>
  match stdin_Close cmd with Some err => Some (osError err) | None =>
  match stdout_ReadAll cmd with (_, Some err) => Some (osError err) | (res, None) =>
  match stderr_ReadAll cmd with (_, Some err) => Some (osError err) | (resErr, None) =>
  let err := failed (cmd_Wait cmd) in
  if match err with Some _ => true | None => false end || isValidityError resErr then
    if (0 <? length resErr)%nat then xmlsecErr (res ++ newline ++ resErr)
    else err
  else None
  end end end end end end end end.

Definition Verify (os : OS) (input publicCertPath : string)
    (opts : option ValidationOptions) : option error :=
  Verify_result (Command os (Verify_args publicCertPath opts) input).

(** Sign takes a XML document and produces a signature.
    [Sign_result] is the function from [cmd.StdoutPipe()] on. *)
Definition Sign_result (cmd : Process) : option string * option error :=
  match cmd_StdoutPipe cmd with Some err => (None, Some (osError err)) | None =>
  match cmd_StderrPipe cmd with Some err => (None, Some (osError err)) | None =>
  match cmd_StdinPipe cmd with Some err => (None, Some (osError err)) | None =>
  match cmd_Start cmd with Some err => (None, Some (osError err)) | None =>
  match stdin_Write cmd with Some err => (None, Some (osError err)) | None =>
  match stdin_Close cmd with Some err => (None, Some (osError err)) | None =>
  match stdout_ReadAll cmd with (_, Some err) => (None, Some (osError err)) | (res, None) =>
  match stderr_ReadAll cmd with (_, Some err) => (None, Some (osError err)) | (resErr, None) =>
  let err := failed (cmd_Wait cmd) in
  if match err with Some _ => true | None => false end || isValidityError resErr then
    if (0 <? length resErr)%nat then (Some res, xmlsecErr (res ++ newline ++ resErr))
    else (None, err)
  else (Some res, None)
  end end end end end end end end.

Definition Sign (os : OS) (input privateKeyPath : string)
    (opts : option ValidationOptions) : option string * option error :=
  Sign_result (Command os (Sign_args privateKeyPath opts) input).

(** The part of [Encrypt] and [Decrypt] after [exec.Command]. *)
Definition run (cmd : Process) : option string * option error :=
  match cmd_StdinPipe cmd with Some err => (None, Some (osError err)) | None =>
  match cmd_StdoutPipe cmd with Some err => (None, Some (osError err)) | None =>
  match cmd_StderrPipe cmd with Some err => (None, Some (osError err)) | None =>
  match cmd_Start cmd with Some err => (None, Some (osError err)) | None =>
  match stdin_Write cmd with Some err => (None, Some (osError err)) | None =>
  match stdin_Close cmd with Some err => (None, Some (osError err)) | None =>
  match stdout_ReadAll cmd with (_, Some err) => (None, Some (osError err)) | (res, None) =>
  match stderr_ReadAll cmd with (_, Some err) => (None, Some (osError err)) | (resErr, None) =>
  match failed (cmd_Wait cmd) with
  | Some err =>
      if (0 <? length resErr)%nat then (Some res, xmlsecErr resErr)
      else (None, Some err)
  | None => (Some res, None)
  end
  end end end end end end end end.

(** Encrypt encrypts a byte sequence into an EncryptedData template using
    the given certificate and encryption method. *)
Definition Encrypt (os : OS) (template : EncryptedData) (input publicCertPath method : string)
    : option string * option error :=
  match ioutil_TempFile os "/tmp" "xmlsec" with (_, Some err) => (None, Some (osError err)) | (fp, None) =>
  match xml_MarshalIndent os template with (_, Some err) => (None, Some (osError err)) | (out, None) =>
  match file_Write os fp out with Some err => (None, Some (osError err)) | None =>
  match file_Close os fp with Some err => (None, Some (osError err)) | None =>
  run (exec_Command os "xmlsec1"
         ["--encrypt"; "--session-key"; method; "--pubkey-cert-pem"; publicCertPath;
          "--output"; "/dev/stdout"; "--xml-data"; "/dev/stdin"; fp]
         input)
  end end end end.

(** Decrypt takes an encrypted XML document and decrypts it using the given
    private key. *)
Definition Decrypt (os : OS) (input privateKeyPath : string) : option string * option error :=
  run (exec_Command os "xmlsec1"
         ["--decrypt"; "--privkey-pem"; privateKeyPath; "--output"; "/dev/stdout"; "/dev/stdin"]
         input).

End xmlsec.

(** ** Package saml: the data model

    The declarations of the SAML schema types are not part of the sources
    at hand; each record below has the fields that the code reads or
    writes, under the names the code uses.  A pointer that the code tests
    against [nil] is an [option]. *)

Module saml.

(** [time.Time] and [time.Duration], in nanoseconds. *)
Definition Time := Z.
Definition Duration := Z.
Definition Second : Duration := 1000000000%Z.
Definition Hour : Duration := (3600 * Second)%Z.
Definition Add (t : Time) (d : Duration) : Time := (t + d)%Z.

Definition defaultValidDuration : Duration := (Hour * 24 * 2)%Z.

(** IssueLifetime is the maximum timeframe where an assertion can be
    considered valid by the receptor. *)
Definition IssueLifetime : Duration := (Second * 90)%Z.

(** Constants of the SAML vocabulary that the package declares elsewhere. *)
Definition HTTPRedirectBinding := "urn:oasis:names:tc:SAML:2.0:bindings:HTTP-Redirect".
Definition HTTPPostBinding := "urn:oasis:names:tc:SAML:2.0:bindings:HTTP-POST".
Definition StatusSuccess := "urn:oasis:names:tc:SAML:2.0:status:Success".

Module Session.
Record t := {
  ID : string;
  CreateTime : Time;
  ExpireTime : Time;
  Index : string;
  NameID : string;
  Groups : list string;
  UserID : string;
  UserFullname : string;
  UserName : string;
  UserEmail : string;
  UserCommonName : string;
  UserSurname : string;
  UserGivenName : string
}.
End Session.

Module SecurityOpts.
Record t := {
  AllowSelfSignedCert : bool;
  TrustUnknownAuthority : bool
}.
End SecurityOpts.

Module Endpoint.
Record t := { Binding : string; Location : string }.
End Endpoint.

Module IndexedEndpoint.
Record t := { Binding : string; Location : string; Index : nat }.
End IndexedEndpoint.

Module KeyInfo.
Record t := { Certificate : string }.
End KeyInfo.

Module EncryptionMethod.
Record t := { Algorithm : string }.
End EncryptionMethod.

Module KeyDescriptor.
Record t := {
  Use : string;
  KeyInfo : KeyInfo.t;
  EncryptionMethods : list EncryptionMethod.t
}.
End KeyDescriptor.

Module IDPSSODescriptor.
Record t := {
  ProtocolSupportEnumeration : string;
  KeyDescriptor : list KeyDescriptor.t;
  NameIDFormat : list string;
  SingleSignOnService : list Endpoint.t
}.
End IDPSSODescriptor.

Module SPSSODescriptor.
Record t := {
  KeyDescriptor : list KeyDescriptor.t;
  AssertionConsumerService : list IndexedEndpoint.t
}.
End SPSSODescriptor.

Module Metadata.
Record t := {
  EntityID : string;
  ValidUntil : Time;
  IDPSSODescriptor : option IDPSSODescriptor.t;
  SPSSODescriptor : option SPSSODescriptor.t
}.
End Metadata.

Module Issuer.
Record t := { Format : string; Value : string }.
End Issuer.

Module AuthnRequest.
Record t := {
  ID : string;
  Issuer : Issuer.t;
  AssertionConsumerServiceURL : string
}.
End AuthnRequest.

Module AttributeValue.
Record t := { Type_ : string; Value : string }.
End AttributeValue.

Module Attribute.
Record t := {
  FriendlyName : string;
  Name : string;
  NameFormat : string;
  Values : list AttributeValue.t
}.
End Attribute.

Module AttributeStatement.
Record t := { Attributes : list Attribute.t }.
End AttributeStatement.

Module NameID.
Record t := {
  Format : string;
  NameQualifier : string;
  SPNameQualifier : string;
  Value : string
}.
End NameID.

Module SubjectConfirmationData.
Record t := {
  Address : string;
  InResponseTo : string;
  NotOnOrAfter : Time;
  Recipient : string
}.
End SubjectConfirmationData.

Module SubjectConfirmation.
Record t := {
  Method : string;
  SubjectConfirmationData : SubjectConfirmationData.t
}.
End SubjectConfirmation.

Module Subject.
Record t := {
  NameID : option NameID.t;
  SubjectConfirmation : option SubjectConfirmation.t
}.
End Subject.

Module Audience.
Record t := { Value : string }.
End Audience.

Module AudienceRestriction.
Record t := { Audience : option Audience.t }.
End AudienceRestriction.

Module Conditions.
Record t := {
  NotBefore : Time;
  NotOnOrAfter : Time;
  AudienceRestriction : option AudienceRestriction.t
}.
End Conditions.

Module AuthnContextClassRef.
Record t := { Value : string }.
End AuthnContextClassRef.

Module AuthnContext.
Record t := { AuthnContextClassRef : option AuthnContextClassRef.t }.
End AuthnContext.

Module SubjectLocality.
Record t := { Address : string }.
End SubjectLocality.

Module AuthnStatement.
Record t := {
  AuthnInstant : Time;
  SessionIndex : string;
  SubjectLocality : SubjectLocality.t;
  AuthnContext : AuthnContext.t
}.
End AuthnStatement.

(** The signature template of [xmlsec.DefaultSignature]: the certificate it
    was made for is all the code gives it. *)
Module Signature.
Record t := { X509Certificate : string }.
End Signature.

Module Assertion.
Record t := {
  ID : string;
  IssueInstant : Time;
  Version : string;
  Issuer : option Issuer.t;
  Signature : option Signature.t;
  Subject : option Subject.t;
  Conditions : option Conditions.t;
  AuthnStatement : option AuthnStatement.t;
  AttributeStatement : option AttributeStatement.t
}.
End Assertion.

Module StatusCode.
Record t := { Value : string }.
End StatusCode.

Module Status.
Record t := { StatusCode : StatusCode.t }.
End Status.

Module EncryptedAssertion.
Record t := { EncryptedData : option string }.
End EncryptedAssertion.

Module Response.
Record t := {
  Destination : string;
  ID : string;
  InResponseTo : string;
  IssueInstant : Time;
  Version : string;
  Issuer : option Issuer.t;
  Status : option Status.t;
  EncryptedAssertion : option EncryptedAssertion.t
}.
End Response.

(** [pem.Block]. *)
Module Block.
Record t := { Type_ : string; Bytes : string }.
End Block.

(** IdentityProvider represents an identity provider. *)
Module IdentityProvider.
Record t := {
  EntityID : string;
  MetadataURL : string;
  SSOURL : string;
  SecurityOpts : SecurityOpts.t;
  KeyFile : string;
  CertFile : string;
  PrivkeyPEM : string;
  PubkeyPEM : string;
  pemCert : option Block.t;          (* atomic.Value; [None] before the first Store *)
  SPMetadataURL : string;
  SPMetadata : option Metadata.t;
  SPAcsURL : string
}.
End IdentityProvider.

(** IdpAuthnRequest is used by IdentityProvider to handle a single
    authentication request.  Its [IDP] field is a pointer: the provider it
    points to lives in the [State] below, next to the request, because
    every request of a provider points to the same object. *)
Module IdpAuthnRequest.
Record t := {
  Address : string;
  RelayState : string;
  RequestBuffer : string;
  Request : AuthnRequest.t;
  ServiceProviderMetadata : option Metadata.t;
  ACSEndpoint : option IndexedEndpoint.t;
  Assertion : option Assertion.t;
  AssertionBuffer : option string;
  Response : option Response.t
}.
End IdpAuthnRequest.

(** ** Package saml: the state and the outside world *)

(** What the outside world answers to the package: the clock and the
    identifier generator (the [n]-th call of [Now] and of [NewID]), the
    file system, the network, and the library functions whose result the
    code only passes on. *)
Record World := {
  os : xmlsec.OS;
  Now : nat -> Time;
  NewID : nat -> string;
  (* helpers of the package that live in files not at hand *)
  writeFile : string -> string * option string;
  validateKeyFile : string -> option error -> string * option error;
  (* os.Open followed by ioutil.ReadAll *)
  os_Open : string -> option string;
  ioutil_ReadAll : string -> string * option string;
  (* http.Get followed by ioutil.ReadAll of the body *)
  http_Get : string -> option string;
  http_ReadAll : string -> string * option string;
  pem_Decode : string -> option Block.t;
  pem_EncodeToMemory : Block.t -> string;
  base64_EncodeToString : string -> string;
  base64_DecodeString : string -> string;
  xml_Marshal : option Assertion.t -> string * option string;
  xml_Unmarshal : string -> Metadata.t * option string
}.

(** The state one call works on: the request, the provider its [IDP] field
    points to, and how many times the process-wide [Now] and [NewID] have
    been called. *)
Record State := {
  IDP : IdentityProvider.t;
  req : IdpAuthnRequest.t;
  nowCalls : nat;
  idCalls : nat
}.

(** A computation that reads and updates the state. *)
Definition M (A : Type) : Type := State -> A * State.

Definition ret {A : Type} (a : A) : M A := fun st => (a, st).

Definition bind {A B : Type} (m : M A) (k : A -> M B) : M B :=
  fun st => let (a, st') := m st in k a st'.

Notation "x <- m ;; k" := (bind m (fun x => k))
  (at level 100, m at next level, right associativity).
Notation "m ;;; k" := (bind m (fun _ => k))
  (at level 100, right associativity).

Definition getIDP : M IdentityProvider.t := fun st => (IDP st, st).
Definition getReq : M IdpAuthnRequest.t := fun st => (req st, st).

Definition setIDP (f : IdentityProvider.t -> IdentityProvider.t) : M unit :=
  fun st => (tt, {| IDP := f (IDP st); req := req st;
                    nowCalls := nowCalls st; idCalls := idCalls st |}).

Definition setReq (f : IdpAuthnRequest.t -> IdpAuthnRequest.t) : M unit :=
  fun st => (tt, {| IDP := IDP st; req := f (req st);
                    nowCalls := nowCalls st; idCalls := idCalls st |}).

(** A call of the process-wide [Now]. *)
Definition callNow (w : World) : M Time :=
  fun st => (Now w (nowCalls st),
             {| IDP := IDP st; req := req st;
                nowCalls := S (nowCalls st); idCalls := idCalls st |}).

(** A call of the process-wide [NewID]. *)
Definition callNewID (w : World) : M string :=
  fun st => (NewID w (idCalls st),
             {| IDP := IDP st; req := req st;
                nowCalls := nowCalls st; idCalls := S (idCalls st) |}).

(** Field assignments of the code. *)
Definition set_pemCert (v : option Block.t) (idp : IdentityProvider.t) : IdentityProvider.t :=
  {| IdentityProvider.EntityID := IdentityProvider.EntityID idp;
     IdentityProvider.MetadataURL := IdentityProvider.MetadataURL idp;
     IdentityProvider.SSOURL := IdentityProvider.SSOURL idp;
     IdentityProvider.SecurityOpts := IdentityProvider.SecurityOpts idp;
     IdentityProvider.KeyFile := IdentityProvider.KeyFile idp;
     IdentityProvider.CertFile := IdentityProvider.CertFile idp;
     IdentityProvider.PrivkeyPEM := IdentityProvider.PrivkeyPEM idp;
     IdentityProvider.PubkeyPEM := IdentityProvider.PubkeyPEM idp;
     IdentityProvider.pemCert := v;
     IdentityProvider.SPMetadataURL := IdentityProvider.SPMetadataURL idp;
     IdentityProvider.SPMetadata := IdentityProvider.SPMetadata idp;
     IdentityProvider.SPAcsURL := IdentityProvider.SPAcsURL idp |}.

Definition set_SPMetadataURL (v : string) (idp : IdentityProvider.t) : IdentityProvider.t :=
  {| IdentityProvider.EntityID := IdentityProvider.EntityID idp;
     IdentityProvider.MetadataURL := IdentityProvider.MetadataURL idp;
     IdentityProvider.SSOURL := IdentityProvider.SSOURL idp;
     IdentityProvider.SecurityOpts := IdentityProvider.SecurityOpts idp;
     IdentityProvider.KeyFile := IdentityProvider.KeyFile idp;
     IdentityProvider.CertFile := IdentityProvider.CertFile idp;
     IdentityProvider.PrivkeyPEM := IdentityProvider.PrivkeyPEM idp;
     IdentityProvider.PubkeyPEM := IdentityProvider.PubkeyPEM idp;
     IdentityProvider.pemCert := IdentityProvider.pemCert idp;
     IdentityProvider.SPMetadataURL := v;
     IdentityProvider.SPMetadata := IdentityProvider.SPMetadata idp;
     IdentityProvider.SPAcsURL := IdentityProvider.SPAcsURL idp |}.

Definition set_SPMetadata (v : option Metadata.t) (idp : IdentityProvider.t) : IdentityProvider.t :=
  {| IdentityProvider.EntityID := IdentityProvider.EntityID idp;
     IdentityProvider.MetadataURL := IdentityProvider.MetadataURL idp;
     IdentityProvider.SSOURL := IdentityProvider.SSOURL idp;
     IdentityProvider.SecurityOpts := IdentityProvider.SecurityOpts idp;
     IdentityProvider.KeyFile := IdentityProvider.KeyFile idp;
     IdentityProvider.CertFile := IdentityProvider.CertFile idp;
     IdentityProvider.PrivkeyPEM := IdentityProvider.PrivkeyPEM idp;
     IdentityProvider.PubkeyPEM := IdentityProvider.PubkeyPEM idp;
     IdentityProvider.pemCert := IdentityProvider.pemCert idp;
     IdentityProvider.SPMetadataURL := IdentityProvider.SPMetadataURL idp;
     IdentityProvider.SPMetadata := v;
     IdentityProvider.SPAcsURL := IdentityProvider.SPAcsURL idp |}.

Definition set_Assertion (v : option Assertion.t) (r : IdpAuthnRequest.t) : IdpAuthnRequest.t :=
  {| IdpAuthnRequest.Address := IdpAuthnRequest.Address r;
     IdpAuthnRequest.RelayState := IdpAuthnRequest.RelayState r;
     IdpAuthnRequest.RequestBuffer := IdpAuthnRequest.RequestBuffer r;
     IdpAuthnRequest.Request := IdpAuthnRequest.Request r;
     IdpAuthnRequest.ServiceProviderMetadata := IdpAuthnRequest.ServiceProviderMetadata r;
     IdpAuthnRequest.ACSEndpoint := IdpAuthnRequest.ACSEndpoint r;
     IdpAuthnRequest.Assertion := v;
     IdpAuthnRequest.AssertionBuffer := IdpAuthnRequest.AssertionBuffer r;
     IdpAuthnRequest.Response := IdpAuthnRequest.Response r |}.

Definition set_AssertionBuffer (v : option string) (r : IdpAuthnRequest.t) : IdpAuthnRequest.t :=
  {| IdpAuthnRequest.Address := IdpAuthnRequest.Address r;
     IdpAuthnRequest.RelayState := IdpAuthnRequest.RelayState r;
     IdpAuthnRequest.RequestBuffer := IdpAuthnRequest.RequestBuffer r;
     IdpAuthnRequest.Request := IdpAuthnRequest.Request r;
     IdpAuthnRequest.ServiceProviderMetadata := IdpAuthnRequest.ServiceProviderMetadata r;
     IdpAuthnRequest.ACSEndpoint := IdpAuthnRequest.ACSEndpoint r;
     IdpAuthnRequest.Assertion := IdpAuthnRequest.Assertion r;
     IdpAuthnRequest.AssertionBuffer := v;
     IdpAuthnRequest.Response := IdpAuthnRequest.Response r |}.

Definition set_Response (v : option Response.t) (r : IdpAuthnRequest.t) : IdpAuthnRequest.t :=
  {| IdpAuthnRequest.Address := IdpAuthnRequest.Address r;
     IdpAuthnRequest.RelayState := IdpAuthnRequest.RelayState r;
     IdpAuthnRequest.RequestBuffer := IdpAuthnRequest.RequestBuffer r;
     IdpAuthnRequest.Request := IdpAuthnRequest.Request r;
     IdpAuthnRequest.ServiceProviderMetadata := IdpAuthnRequest.ServiceProviderMetadata r;
     IdpAuthnRequest.ACSEndpoint := IdpAuthnRequest.ACSEndpoint r;
     IdpAuthnRequest.Assertion := IdpAuthnRequest.Assertion r;
     IdpAuthnRequest.AssertionBuffer := IdpAuthnRequest.AssertionBuffer r;
     IdpAuthnRequest.Response := v |}.

(** A [[]byte] that may be nil, read as bytes. *)
Definition bytesOf (b : option string) : string :=
  match b with Some b => b | None => "" end.

(** ** Package saml: the functions *)

(** IsSecurityException returns whether the given error is a security
    exception not bypassed by SecurityOpts. *)
Definition IsSecurityException (err : option error) (opts : SecurityOpts.t) : bool :=
  if match err with Some (ErrSelfSignedCertificate _) => true | _ => false end
     && SecurityOpts.AllowSelfSignedCert opts then false
  else if match err with Some (ErrUnknownIssuer _) => true | _ => false end
     && SecurityOpts.TrustUnknownAuthority opts then false
  else true.

(** PrivkeyFile returns a physical path where the IdP's key can be accessed. *)
Definition PrivkeyFile (w : World) (idp : IdentityProvider.t) : string * option error :=
  if negb (IdentityProvider.KeyFile idp =? "") then (IdentityProvider.KeyFile idp, None)
  else if negb (IdentityProvider.PrivkeyPEM idp =? "") then
    let (path, err) := writeFile w (IdentityProvider.PrivkeyPEM idp) in (path, failed err)
  else ("", Some (fundamental "missing idp private key")).

(** PubkeyFile returns a physical path where the IdP's public key can be
    accessed. *)
Definition PubkeyFile (w : World) (idp : IdentityProvider.t) : string * option error :=
  if negb (IdentityProvider.CertFile idp =? "") then
    validateKeyFile w (IdentityProvider.CertFile idp) None
  else if negb (IdentityProvider.PubkeyPEM idp =? "") then
    let (path, err) := writeFile w (IdentityProvider.PubkeyPEM idp) in
    validateKeyFile w path (failed err)
  else ("", Some (fundamental "missing idp public key")).

(** Cert returns a *pem.Block value that corresponds to the IdP's
    certificate. *)
Definition Cert (w : World) : M (Block.t + error) :=
  idp <- getIDP ;;
  match IdentityProvider.pemCert idp with
  | Some v => ret (inl v)
  | None =>
      match PubkeyFile w idp with
      | (_, Some err) => ret (inr err)
      | (certFile, None) =>
          match os_Open w certFile with
          | Some err => ret (inr (osError err))
          | None =>
              match ioutil_ReadAll w certFile with
              | (_, Some err) => ret (inr (osError err))
              | (buf, None) =>
                  match pem_Decode w buf with
                  | None => ret (inr (fundamental "failed to decode idp cert"))
                  | Some cert =>
                      setIDP (set_pemCert (Some cert)) ;;;
                      ret (inl cert)
                  end
              end
          end
      end
  end.

(** Metadata returns a metadata value based on the IdP's data. *)
Definition Metadata_ (w : World) : M (Metadata.t + error) :=
  r <- Cert w ;;
  match r with
  | inr err => ret (inr (withMessage err "failed to get cert"))
  | inl cert =>
      let certStr := base64_EncodeToString w (Block.Bytes cert) in
      idp <- getIDP ;;
      now <- callNow w ;;
      ret (inl
        {| Metadata.EntityID := IdentityProvider.MetadataURL idp;
           Metadata.ValidUntil := Add now defaultValidDuration;
           Metadata.IDPSSODescriptor := Some
             {| IDPSSODescriptor.ProtocolSupportEnumeration :=
                  "urn:oasis:names:tc:SAML:2.0:protocol";
                IDPSSODescriptor.KeyDescriptor :=
                  [ {| KeyDescriptor.Use := "signing";
                       KeyDescriptor.KeyInfo := {| KeyInfo.Certificate := certStr |};
                       KeyDescriptor.EncryptionMethods := [] |};
                    {| KeyDescriptor.Use := "encryption";
                       KeyDescriptor.KeyInfo := {| KeyInfo.Certificate := certStr |};
                       KeyDescriptor.EncryptionMethods :=
                         [ {| EncryptionMethod.Algorithm :=
                                "http://www.w3.org/2001/04/xmlenc#aes128-cbc" |};
                           {| EncryptionMethod.Algorithm :=
                                "http://www.w3.org/2001/04/xmlenc#aes192-cbc" |};
                           {| EncryptionMethod.Algorithm :=
                                "http://www.w3.org/2001/04/xmlenc#aes256-cbc" |};
                           {| EncryptionMethod.Algorithm :=
                                "http://www.w3.org/2001/04/xmlenc#rsa-oaep-mgf1p" |} ] |} ];
                IDPSSODescriptor.NameIDFormat :=
                  [ "urn:oasis:names:tc:SAML:2.0:nameid-format:transient" ];
                IDPSSODescriptor.SingleSignOnService :=
                  [ {| Endpoint.Binding := HTTPRedirectBinding;
                       Endpoint.Location := IdentityProvider.SSOURL idp |};
                    {| Endpoint.Binding := HTTPPostBinding;
                       Endpoint.Location := IdentityProvider.SSOURL idp |} ] |};
           Metadata.SPSSODescriptor := None |})
  end.

(** An attribute with the single value [v] of type xs:string. *)
Definition stringValue (v : string) : AttributeValue.t :=
  {| AttributeValue.Type_ := "xs:string"; AttributeValue.Value := v |}.

(** The [attributes] slice that MakeAssertion fills, statement by statement. *)
Definition attributes (session : Session.t) : list Attribute.t :=
  let attributes := [] in
  let attributes :=
    if negb (Session.UserName session =? "") then
      xmlsec.append attributes
        [ {| Attribute.FriendlyName := "uid";
             Attribute.Name := "urn:oid:0.9.2342.19200300.100.1.1";
             Attribute.NameFormat := "urn:oasis:names:tc:SAML:2.0:attrname-format:uri";
             Attribute.Values := [ stringValue (Session.UserName session) ] |} ]
    else attributes in
  let attributes :=
    if negb (Session.UserEmail session =? "") then
      xmlsec.append attributes
        [ {| Attribute.FriendlyName := "eduPersonPrincipalName";
             Attribute.Name := "urn:oid:1.3.6.1.4.1.5923.1.1.1.6";
             Attribute.NameFormat := "urn:oasis:names:tc:SAML:2.0:attrname-format:uri";
             Attribute.Values := [ stringValue (Session.UserEmail session) ] |} ]
    else attributes in
  let attributes :=
    if negb (Session.UserSurname session =? "") then
      xmlsec.append attributes
        [ {| Attribute.FriendlyName := "sn";
             Attribute.Name := "urn:oid:2.5.4.4";
             Attribute.NameFormat := "urn:oasis:names:tc:SAML:2.0:attrname-format:uri";
             Attribute.Values := [ stringValue (Session.UserSurname session) ] |} ]
    else attributes in
  let attributes :=
    if negb (Session.UserGivenName session =? "") then
      xmlsec.append attributes
        [ {| Attribute.FriendlyName := "givenName";
             Attribute.Name := "urn:oid:2.5.4.42";
             Attribute.NameFormat := "urn:oasis:names:tc:SAML:2.0:attrname-format:uri";
             Attribute.Values := [ stringValue (Session.UserGivenName session) ] |} ]
    else attributes in
  let attributes :=
    if negb (Session.UserCommonName session =? "") then
      xmlsec.append attributes
        [ {| Attribute.FriendlyName := "cn";
             Attribute.Name := "urn:oid:2.5.4.3";
             Attribute.NameFormat := "urn:oasis:names:tc:SAML:2.0:attrname-format:uri";
             Attribute.Values := [ stringValue (Session.UserCommonName session) ] |} ]
    else attributes in
  let attributes :=
    if negb (Session.UserID session =? "") then
      xmlsec.append attributes
        [ {| Attribute.FriendlyName := "MASTUsername";
             Attribute.Name := "userid";
             Attribute.NameFormat := "";
             Attribute.Values := [ stringValue (Session.UserID session) ] |} ]
    else attributes in
  let attributes :=
    if negb (Session.UserEmail session =? "") then
      xmlsec.append attributes
        [ {| Attribute.FriendlyName := "MASTEmail";
             Attribute.Name := "email";
             Attribute.NameFormat := "";
             Attribute.Values := [ stringValue (Session.UserEmail session) ] |} ]
    else attributes in
  let attributes :=
    if negb (Session.UserFullname session =? "") then
      xmlsec.append attributes
        [ {| Attribute.FriendlyName := "MASTName";
             Attribute.Name := "fullname";
             Attribute.NameFormat := "";
             Attribute.Values := [ stringValue (Session.UserFullname session) ] |} ]
    else attributes in
  let attributes :=
    if negb (List.length (Session.Groups session) =? 0)%nat then
      let groupMemberAttributeValues :=
        fold_left (fun values group => xmlsec.append values [ stringValue group ])
          (Session.Groups session) [] in
      xmlsec.append attributes
        [ {| Attribute.FriendlyName := "eduPersonAffiliation";
             Attribute.Name := "urn:oid:1.3.6.1.4.1.5923.1.1.1.1";
             Attribute.NameFormat := "urn:oasis:names:tc:SAML:2.0:attrname-format:uri";
             Attribute.Values := groupMemberAttributeValues |} ]
    else attributes in
  attributes.

(** The loop of the second case of the Recipient switch: the location of the
    first endpoint with the HTTP-POST binding; [None] when the loop ends
    without returning. *)
Fixpoint firstPOST (endpoints : list IndexedEndpoint.t) : option string :=
  match endpoints with
  | [] => None
  | acs :: rest =>
      if IndexedEndpoint.Binding acs =? "urn:oasis:names:tc:SAML:2.0:bindings:HTTP-POST"
      then Some (IndexedEndpoint.Location acs)
      else firstPOST rest
  end.

(** The function literal that computes [Recipient] in MakeAssertion. *)
Definition Recipient (r : IdpAuthnRequest.t) : string :=
  match IdpAuthnRequest.ACSEndpoint r with
  | Some acs =>                       (* case req.ACSEndpoint != nil *)
      IndexedEndpoint.Location acs
  | None =>
      match IdpAuthnRequest.ServiceProviderMetadata r with
      | Some meta =>
          match Metadata.SPSSODescriptor meta with
          | Some sp =>                (* case metadata != nil && SPSSODescriptor != nil *)
              match firstPOST (SPSSODescriptor.AssertionConsumerService sp) with
              | Some location => location
              | None => ""            (* the switch is left; return "" *)
              end
          | None =>                   (* default *)
              AuthnRequest.AssertionConsumerServiceURL (IdpAuthnRequest.Request r)
          end
      | None =>                       (* default *)
          AuthnRequest.AssertionConsumerServiceURL (IdpAuthnRequest.Request r)
      end
  end.

(** The function literal [spNameQualifier]. *)
Definition spNameQualifier (r : IdpAuthnRequest.t) : string :=
  match IdpAuthnRequest.ServiceProviderMetadata r with
  | Some meta => Metadata.EntityID meta
  | None => ""
  end.

(** The function literal that computes [AudienceRestriction]. *)
Definition audienceRestriction (r : IdpAuthnRequest.t) : option AudienceRestriction.t :=
  match IdpAuthnRequest.ServiceProviderMetadata r with
  | Some meta =>
      Some {| AudienceRestriction.Audience :=
                Some {| Audience.Value := Metadata.EntityID meta |} |}
  | None => None
  end.

(** [xmlsec.DefaultSignature(pemCert)]. *)
Definition DefaultSignature (pemCert : string) : Signature.t :=
  {| Signature.X509Certificate := pemCert |}.

(** MakeAssertion produces a SAML assertion for the given request and
    assigns it to req.Assertion. *)
Definition MakeAssertion (w : World) (session : Session.t) : M (option error) :=
  r <- Cert w ;;
  match r with
  | inr err => ret (Some err)
  | inl cert =>
      let signatureTemplate := DefaultSignature (pem_EncodeToMemory w cert) in
      let attributes := attributes session in
      m <- Metadata_ w ;;
      match m with
      | inr err => ret (Some err)
      | inl idpMetadata =>
          rq <- getReq ;;
          id <- callNewID w ;;
          issueInstant <- callNow w ;;
          now1 <- callNow w ;;
          now2 <- callNow w ;;
          now3 <- callNow w ;;
          setReq (set_Assertion (Some
            {| Assertion.ID := id;
               Assertion.IssueInstant := issueInstant;
               Assertion.Version := "2.0";
               Assertion.Issuer := Some
                 {| Issuer.Format := "XXX";
                    Issuer.Value := Metadata.EntityID idpMetadata |};
               Assertion.Signature := Some signatureTemplate;
               Assertion.Subject := Some
                 {| Subject.NameID := Some
                      {| NameID.Format :=
                           "urn:oasis:names:tc:SAML:2.0:nameid-format:transient";
                         NameID.NameQualifier := Metadata.EntityID idpMetadata;
                         NameID.SPNameQualifier := spNameQualifier rq;
                         NameID.Value := Session.NameID session |};
                    Subject.SubjectConfirmation := Some
                      {| SubjectConfirmation.Method :=
                           "urn:oasis:names:tc:SAML:2.0:cm:bearer";
                         SubjectConfirmation.SubjectConfirmationData :=
                           {| SubjectConfirmationData.Address := IdpAuthnRequest.Address rq;
                              SubjectConfirmationData.InResponseTo :=
                                AuthnRequest.ID (IdpAuthnRequest.Request rq);
                              SubjectConfirmationData.NotOnOrAfter := Add now1 IssueLifetime;
                              SubjectConfirmationData.Recipient := Recipient rq |} |} |};
               Assertion.Conditions := Some
                 {| Conditions.NotBefore := now2;
                    Conditions.NotOnOrAfter := Add now3 IssueLifetime;
                    Conditions.AudienceRestriction := audienceRestriction rq |};
               Assertion.AuthnStatement := Some
                 {| AuthnStatement.AuthnInstant := Session.CreateTime session;
                    AuthnStatement.SessionIndex := Session.Index session;
                    AuthnStatement.SubjectLocality :=
                      {| SubjectLocality.Address := IdpAuthnRequest.Address rq |};
                    AuthnStatement.AuthnContext :=
                      {| AuthnContext.AuthnContextClassRef := Some
                           {| AuthnContextClassRef.Value :=
                                "urn:oasis:names:tc:SAML:2.0:ac:classes:PasswordProtectedTransport" |} |} |};
               Assertion.AttributeStatement := Some
                 {| AttributeStatement.Attributes := attributes |} |})) ;;;
          ret None
      end
  end.

(** GetSPMetadata returns a the SP's metadata value *)
Definition GetSPMetadata (w : World) : M (Metadata.t + error) :=
  idp <- getIDP ;;
  match IdentityProvider.SPMetadata idp with
  | Some m => ret (inl m)
  | None =>
      if IdentityProvider.SPMetadataURL idp =? "" then
        ret (inr (fundamental "missing sp metadata url"))
      else
        match http_Get w (IdentityProvider.SPMetadataURL idp) with
        | Some err => ret (inr (osError err))
        | None =>
            match http_ReadAll w (IdentityProvider.SPMetadataURL idp) with
            | (_, Some err) => ret (inr (osError err))
            | (buf, None) =>
                match xml_Unmarshal w buf with
                | (_, Some err) => ret (inr (osError err))
                | (metadata, None) =>
                    setIDP (set_SPMetadata (Some metadata)) ;;;
                    ret (inl metadata)
                end
            end
        end
  end.

(** The two loops of GetSPCertFile over the key descriptors. *)
Fixpoint encryptionCert (l : list KeyDescriptor.t) : string :=
  match l with
  | [] => ""
  | keyDescriptor :: rest =>
      if KeyDescriptor.Use keyDescriptor =? "encryption"
      then KeyInfo.Certificate (KeyDescriptor.KeyInfo keyDescriptor)
      else encryptionCert rest
  end.

Fixpoint anyCert (l : list KeyDescriptor.t) : string :=
  match l with
  | [] => ""
  | keyDescriptor :: rest =>
      if negb (KeyInfo.Certificate (KeyDescriptor.KeyInfo keyDescriptor) =? "")
      then KeyInfo.Certificate (KeyDescriptor.KeyInfo keyDescriptor)
      else anyCert rest
  end.

(** GetSPCertFile returns a physical path where the SP's certificate can be
    accessed. *)
Definition GetSPCertFile (w : World) : M (string * option error) :=
  m <- GetSPMetadata w ;;
  match m with
  | inr err => ret ("", Some err)
  | inl meta =>
      match Metadata.SPSSODescriptor meta with
      | None => ret ("", Some (fundamental "missing sp sso descriptor"))
      | Some sp =>
          let cert := encryptionCert (SPSSODescriptor.KeyDescriptor sp) in
          let cert :=
            if cert =? "" then anyCert (SPSSODescriptor.KeyDescriptor sp) else cert in
          if cert =? "" then ret ("", Some (fundamental "missing sp cert"))
          else
            let certBytes := base64_DecodeString w cert in
            let certBytes :=
              pem_EncodeToMemory w
                {| Block.Type_ := "CERTIFICATE"; Block.Bytes := certBytes |} in
            let (path, err) := writeFile w certBytes in
            ret (path, failed err)
      end
  end.

(** The XML declaration that MarshalAssertion strips. *)
Definition xmlDeclaration : string :=
  "<?xml version=" ++ String (strings.byte 34) "1.0" ++ String (strings.byte 34) "?>".

(** The function literal whose result MarshalAssertion stores in
    req.IDP.SPMetadataURL. *)
Definition spMetadataURL (r : IdpAuthnRequest.t) : string :=
  if negb (Issuer.Value (AuthnRequest.Issuer (IdpAuthnRequest.Request r)) =? "") then
    Issuer.Value (AuthnRequest.Issuer (IdpAuthnRequest.Request r))
  else
    match IdpAuthnRequest.ServiceProviderMetadata r with
    | Some meta => Metadata.EntityID meta
    | None => ""
    end.

(** [err != nil && IsSecurityException(err, &req.IDP.SecurityOpts)]: the
    error stops the pipeline. *)
Definition fatal (err : option error) (idp : IdentityProvider.t) : bool :=
  match err with
  | Some _ => IsSecurityException err (IdentityProvider.SecurityOpts idp)
  | None => false
  end.

(** MarshalAssertion produces a valid and signed XML assertion. *)
Definition MarshalAssertion (w : World) : M (option error) :=
  rq <- getReq ;;
  match xml_Marshal w (IdpAuthnRequest.Assertion rq) with
  | (_, Some err) => ret (Some (osError err))
  | (buf, None) =>
      idp <- getIDP ;;
      match PrivkeyFile w idp with
      | (_, Some err) => ret (Some err)
      | (keyFile, None) =>
          let (buf, err) :=
            xmlsec.Sign (os w) buf keyFile
              (Some {| xmlsec.DTDFile := "";
                       xmlsec.EnableIDAttrHack := true;
                       xmlsec.IDAttrs := [] |}) in
          if fatal err idp then ret err
          else
            setIDP (set_SPMetadataURL (spMetadataURL rq)) ;;;
            c <- GetSPCertFile w ;;
            match c with
            | (_, Some err) => ret (Some err)
            | (spCertFile, None) =>
                let tpl :=
                  xmlsec.NewEncryptedDataTemplate
                    "http://www.w3.org/2001/04/xmlenc#aes128-cbc"
                    "http://www.w3.org/2001/04/xmlenc#rsa-oaep-mgf1p" in
                let (buf, err) :=
                  xmlsec.Encrypt (os w) tpl (bytesOf buf) spCertFile "aes-128-cbc" in
                idp <- getIDP ;;
                if fatal err idp then ret err
                else
                  setReq (set_AssertionBuffer
                            (bytes.TrimSpace (bytes.TrimPrefix (bytesOf buf) xmlDeclaration))) ;;;
                  ret None
            end
      end
  end.

(** How a call ends: it returns, or it panics on a nil pointer. *)
Inductive outcome : Type :=
| Returns (err : option error)
| Panics.

(** [req.Assertion.Subject.SubjectConfirmation.SubjectConfirmationData.Recipient];
    [None] when one of the three pointers is nil. *)
Definition assertionRecipient (r : IdpAuthnRequest.t) : option string :=
  match IdpAuthnRequest.Assertion r with
  | None => None
  | Some a =>
      match Assertion.Subject a with
      | None => None
      | Some s =>
          match Subject.SubjectConfirmation s with
          | None => None
          | Some sc =>
              Some (SubjectConfirmationData.Recipient
                      (SubjectConfirmation.SubjectConfirmationData sc))
          end
      end
  end.

(** MakeResponse computes the Response field of the IdpAuthnRequest *)
Definition MakeResponse (w : World) : M outcome :=
  rq <- getReq ;;
  err <- match IdpAuthnRequest.AssertionBuffer rq with
         | None => MarshalAssertion w
         | Some _ => ret None
         end ;;
  match err with
  | Some err => ret (Returns (Some err))
  | None =>
      rq <- getReq ;;
      match assertionRecipient rq with
      | None => ret Panics
      | Some destination =>
          id <- callNewID w ;;
          issueInstant <- callNow w ;;
          idp <- getIDP ;;
          let response :=
            {| Response.Destination := destination;
               Response.ID := id;
               Response.InResponseTo := AuthnRequest.ID (IdpAuthnRequest.Request rq);
               Response.IssueInstant := issueInstant;
               Response.Version := "2.0";
               Response.Issuer := Some
                 {| Issuer.Format := "urn:oasis:names:tc:SAML:2.0:nameid-format:entity";
                    Issuer.Value := IdentityProvider.MetadataURL idp |};
               Response.Status := Some
                 {| Status.StatusCode := {| StatusCode.Value := StatusSuccess |} |};
               Response.EncryptedAssertion := Some
                 {| EncryptedAssertion.EncryptedData :=
                      IdpAuthnRequest.AssertionBuffer rq |} |} in
          setReq (set_Response (Some response)) ;;;
          if Response.Destination response =? "" then
            ret (Returns (Some (fundamental "missing response destination")))
          else ret (Returns None)
      end
  end.

(** GetMetadata takes the URL of a metadata.xml file, downloads and parses
    it.  Returns a *Metadata value. *)
Definition GetMetadata (w : World) (metadataURL : string) : Metadata.t + error :=
  match http_Get w metadataURL with
  | Some err => inr (withMessage (osError err) ("failed to get url: " ++ metadataURL))
  | None =>
      match http_ReadAll w metadataURL with
      | (_, Some err) =>
          inr (withMessage (osError err) ("failed to read body from url: " ++ metadataURL))
      | (buf, None) =>
          match xml_Unmarshal w buf with
          | (_, Some err) =>
              inr (withMessage (osError err) ("failed to unmarshal body: " ++ buf))
          | (metadata, None) => inl metadata
          end
      end
  end.

End saml.

(** ** The specification's reading of the classification *)

(** The outcomes that the specification names for a diagnostic text. *)
Inductive Outcome : Type :=
| NoError
| SignatureFailure
| ValidityErrorKind
| SelfSignedKind
| UnknownIssuerKind
| Unclassified.

(** The classification as the specification words it: the tests are made on
    the diagnostic text itself, the first that matches wins. *)
Definition classify (s : string) : Outcome :=
  if strings.HasPrefix s "OK" then NoError
  else if strings.Contains s "signature failed" then SignatureFailure
  else if strings.Contains s "validity error" then ValidityErrorKind
  else if strings.Contains s "msg=self signed certificate" then SelfSignedKind
  else if strings.Contains s "msg=unable to get local issuer certificate" then UnknownIssuerKind
  else Unclassified.

(** The error value that stands for an outcome, around the generic error
    [err] that carries the text. *)
Definition errorOf (k : Outcome) (err : error) : option error :=
  match k with
  | NoError => None
  | SignatureFailure => Some err
  | ValidityErrorKind => Some (ErrValidityError err)
  | SelfSignedKind => Some (ErrSelfSignedCertificate err)
  | UnknownIssuerKind => Some (ErrUnknownIssuer err)
  | Unclassified => Some err
  end.

(** ** Auxiliary functions of the proofs *)

(** [c] occurs in [s]. *)
Fixpoint occurs (c : ascii) (s : string) : bool :=
  match s with
  | "" => false
  | String d s' => Ascii.eqb d c || occurs c s'
  end.

(** [c] is the last byte of [s]. *)
Fixpoint endsWith (c : ascii) (s : string) : bool :=
  match s with
  | "" => false
  | String d "" => Ascii.eqb d c
  | String _ s' => endsWith c s'
  end.

(** The text of the generic error made for the diagnostic [s]. *)
Definition message (s : string) : string := "xmlsec: " ++ strings.TrimSpace s.

(** An argument vector read as options: each flag with the value after it. *)
Fixpoint flatten (options : list (string * string)) : list string :=
  match options with
  | [] => []
  | (flag, value) :: rest => flag :: value :: flatten rest
  end.

(** The option is [--enabled-reference-uris]. *)
Definition isReferenceURIs (option : string * string) : bool :=
  fst option =? "--enabled-reference-uris".

(** Every call on the child process and its pipes succeeded. *)
Definition delivered (cmd : xmlsec.Process) : bool :=
  match xmlsec.cmd_StdinPipe cmd, xmlsec.cmd_StdoutPipe cmd, xmlsec.cmd_StderrPipe cmd,
        xmlsec.cmd_Start cmd, xmlsec.stdin_Write cmd, xmlsec.stdin_Close cmd,
        snd (xmlsec.stdout_ReadAll cmd), snd (xmlsec.stderr_ReadAll cmd) with
  | None, None, None, None, None, None, None, None => true
  | _, _, _, _, _, _, _, _ => false
  end.

(** ** Sample runs of the external engine *)

(** A run in which every call succeeds, with the given output, diagnostic
    and result of [cmd.Wait]. *)
Definition completed (out diag : string) (wait : option string) : xmlsec.Process :=
  {| xmlsec.cmd_StdinPipe := None;
     xmlsec.cmd_StdoutPipe := None;
     xmlsec.cmd_StderrPipe := None;
     xmlsec.cmd_Start := None;
     xmlsec.stdin_Write := None;
     xmlsec.stdin_Close := None;
     xmlsec.stdout_ReadAll := (out, None);
     xmlsec.stderr_ReadAll := (diag, None);
     xmlsec.cmd_Wait := wait |}.

(** An operating system in which every file operation succeeds and every
    child process runs as [cmd]. *)
Definition always (cmd : xmlsec.Process) : xmlsec.OS :=
  {| xmlsec.exec_Command := fun _ _ _ => cmd;
     xmlsec.ioutil_TempFile := fun _ _ => ("/tmp/xmlsec0", None);
     xmlsec.file_Write := fun _ _ => None;
     xmlsec.file_Close := fun _ => None;
     xmlsec.xml_MarshalIndent := fun _ => ("<EncryptedData/>", None) |}.

(** The engine prints OK, reports a validity error on its diagnostic stream
    and exits with status 0. *)
Definition okWithValidityError : xmlsec.Process :=
  completed "OK" "doc.xml:1: validity error : no DTD found" None.

(** The engine writes a document, reports a validity error and exits with
    status 0. *)
Definition signedWithValidityError : xmlsec.Process :=
  completed "<Assertion/>" "doc.xml:1: validity error : no DTD found" None.

(** ** The specification's reading of the assertion builder *)

Section BuilderSpecification.

Import saml.

(** The recipient stored in a request's assertion and the attributes of its
    attribute statement. *)
Definition assertionAttributes (r : IdpAuthnRequest.t) : option (list Attribute.t) :=
  match IdpAuthnRequest.Assertion r with
  | None => None
  | Some a => option_map AttributeStatement.Attributes (Assertion.AttributeStatement a)
  end.

Definition isPOST (acs : IndexedEndpoint.t) : bool :=
  IndexedEndpoint.Binding acs =? "urn:oasis:names:tc:SAML:2.0:bindings:HTTP-POST".

(** The first assertion-consumer endpoint of the metadata whose binding is
    HTTP-POST. *)
Definition metadataPOSTEndpoint (meta : option Metadata.t) : option IndexedEndpoint.t :=
  match meta with
  | None => None
  | Some meta =>
      match Metadata.SPSSODescriptor meta with
      | None => None
      | Some sp => find isPOST (SPSSODescriptor.AssertionConsumerService sp)
      end
  end.

(** Recipient resolution as the specification words it: the explicit
    endpoint; else the first POST endpoint of the metadata; else the URL of
    the request (empty when the request declares none). *)
Definition recipientByPrecedence (r : IdpAuthnRequest.t) : string :=
  match IdpAuthnRequest.ACSEndpoint r with
  | Some acs => IndexedEndpoint.Location acs
  | None =>
      match metadataPOSTEndpoint (IdpAuthnRequest.ServiceProviderMetadata r) with
      | Some acs => IndexedEndpoint.Location acs
      | None => AuthnRequest.AssertionConsumerServiceURL (IdpAuthnRequest.Request r)
      end
  end.

(** The descriptor of the service provider, when the request has metadata
    that carries one. *)
Definition descriptor (r : IdpAuthnRequest.t) : option SPSSODescriptor.t :=
  match IdpAuthnRequest.ServiceProviderMetadata r with
  | None => None
  | Some meta => Metadata.SPSSODescriptor meta
  end.

(** Recipient resolution as amended: the URL of the request is used only
    when the request has no service-provider descriptor at all. *)
Definition recipientResolved (r : IdpAuthnRequest.t) : string :=
  match IdpAuthnRequest.ACSEndpoint r with
  | Some acs => IndexedEndpoint.Location acs
  | None =>
      match descriptor r with
      | Some sp =>
          match find isPOST (SPSSODescriptor.AssertionConsumerService sp) with
          | Some acs => IndexedEndpoint.Location acs
          | None => ""
          end
      | None => AuthnRequest.AssertionConsumerServiceURL (IdpAuthnRequest.Request r)
      end
  end.

Definition uriFormat := "urn:oasis:names:tc:SAML:2.0:attrname-format:uri".

(** The fixed table of single-valued attributes: the session field that is
    the source, then friendly name, formal name and name format. *)
Definition attributeTable : list ((Session.t -> string) * (string * string * string)) :=
  [ (Session.UserName, ("uid", "urn:oid:0.9.2342.19200300.100.1.1", uriFormat));
    (Session.UserEmail,
       ("eduPersonPrincipalName", "urn:oid:1.3.6.1.4.1.5923.1.1.1.6", uriFormat));
    (Session.UserSurname, ("sn", "urn:oid:2.5.4.4", uriFormat));
    (Session.UserGivenName, ("givenName", "urn:oid:2.5.4.42", uriFormat));
    (Session.UserCommonName, ("cn", "urn:oid:2.5.4.3", uriFormat));
    (Session.UserID, ("MASTUsername", "userid", ""));
    (Session.UserEmail, ("MASTEmail", "email", ""));
    (Session.UserFullname, ("MASTName", "fullname", "")) ].

(** The row of the group memberships. *)
Definition groupsRow : string * string * string :=
  ("eduPersonAffiliation", "urn:oid:1.3.6.1.4.1.5923.1.1.1.1", uriFormat).

(** The attribute of a row, carrying the given values. *)
Definition entry (row : string * string * string) (values : list string) : Attribute.t :=
  let '(friendly, name, format) := row in
  {| Attribute.FriendlyName := friendly;
     Attribute.Name := name;
     Attribute.NameFormat := format;
     Attribute.Values := map stringValue values |}.

(** One entry per row whose source field is not empty, in the order of the
    table, then one entry with all the groups when there is a group. *)
Definition tableAttributes (session : Session.t) : list Attribute.t :=
  (flat_map (fun row =>
               if fst row session =? "" then []
               else [entry (snd row) [fst row session]])
            attributeTable
   ++ match Session.Groups session with
      | [] => []
      | groups => [entry groupsRow groups]
      end)%list.

(** The session fields that are the source of some attribute, each with
    its test of emptiness. *)
Definition sourceFields : list (Session.t -> bool) :=
  [ fun s => Session.UserName s =? "";
    fun s => Session.UserEmail s =? "";
    fun s => Session.UserSurname s =? "";
    fun s => Session.UserGivenName s =? "";
    fun s => Session.UserCommonName s =? "";
    fun s => Session.UserID s =? "";
    fun s => Session.UserFullname s =? "";
    fun s => match Session.Groups s with [] => true | _ => false end ].

(** The number of source fields of the session that are not empty. *)
Definition nonEmptyFields (session : Session.t) : nat :=
  List.length (filter (fun empty => negb (empty session)) sourceFields).

End BuilderSpecification.

(** ** A sample provider, request and outside world *)

Section Samples.

Import saml.

(** The metadata of a service provider with a redirect endpoint and a POST
    endpoint. *)
Definition spMetadata : Metadata.t :=
  {| Metadata.EntityID := "https://sp.example/metadata";
     Metadata.ValidUntil := 0%Z;
     Metadata.IDPSSODescriptor := None;
     Metadata.SPSSODescriptor := Some
       {| SPSSODescriptor.KeyDescriptor :=
            [ {| KeyDescriptor.Use := "encryption";
                 KeyDescriptor.KeyInfo := {| KeyInfo.Certificate := "TUlJQg==" |};
                 KeyDescriptor.EncryptionMethods := [] |} ];
          SPSSODescriptor.AssertionConsumerService :=
            [ {| IndexedEndpoint.Binding := HTTPRedirectBinding;
                 IndexedEndpoint.Location := "https://sp.example/redirect";
                 IndexedEndpoint.Index := 0 |};
              {| IndexedEndpoint.Binding := HTTPPostBinding;
                 IndexedEndpoint.Location := "https://sp.example/post";
                 IndexedEndpoint.Index := 1 |} ] |} |}.

(** The metadata of a service provider that only has a redirect endpoint. *)
Definition redirectOnlyMetadata : Metadata.t :=
  {| Metadata.EntityID := "https://sp.example/metadata";
     Metadata.ValidUntil := 0%Z;
     Metadata.IDPSSODescriptor := None;
     Metadata.SPSSODescriptor := Some
       {| SPSSODescriptor.KeyDescriptor := [];
          SPSSODescriptor.AssertionConsumerService :=
            [ {| IndexedEndpoint.Binding := HTTPRedirectBinding;
                 IndexedEndpoint.Location := "https://sp.example/redirect";
                 IndexedEndpoint.Index := 0 |} ] |} |}.

(** A world in which every operation succeeds: the engine writes a document
    and no diagnostic, the network delivers [spMetadata]. *)
Definition quietWorld : World :=
  {| os := always (completed "<EncryptedData/>" "" None);
     Now := fun n => (1000 + Z.of_nat n)%Z;
     NewID := fun n => "id-" ++ String (ascii_of_nat (48 + n)) "";
     writeFile := fun _ => ("/tmp/saml0", None);
     validateKeyFile := fun path err => (path, err);
     os_Open := fun _ => None;
     ioutil_ReadAll := fun _ => ("-----BEGIN CERTIFICATE-----", None);
     http_Get := fun _ => None;
     http_ReadAll := fun _ => ("<EntityDescriptor/>", None);
     pem_Decode := fun buf => Some {| Block.Type_ := "CERTIFICATE"; Block.Bytes := buf |};
     pem_EncodeToMemory := Block.Bytes;
     base64_EncodeToString := fun b => b;
     base64_DecodeString := fun b => b;
     xml_Marshal := fun _ => ("<Assertion/>", None);
     xml_Unmarshal := fun _ => (spMetadata, None) |}.

(** A provider with a key file and a certificate file, and no knowledge of
    the service provider yet. *)
Definition provider : IdentityProvider.t :=
  {| IdentityProvider.EntityID := "https://idp.example/";
     IdentityProvider.MetadataURL := "https://idp.example/metadata";
     IdentityProvider.SSOURL := "https://idp.example/sso";
     IdentityProvider.SecurityOpts :=
       {| SecurityOpts.AllowSelfSignedCert := false;
          SecurityOpts.TrustUnknownAuthority := false |};
     IdentityProvider.KeyFile := "idp.key";
     IdentityProvider.CertFile := "idp.pem";
     IdentityProvider.PrivkeyPEM := "";
     IdentityProvider.PubkeyPEM := "";
     IdentityProvider.pemCert := None;
     IdentityProvider.SPMetadataURL := "";
     IdentityProvider.SPMetadata := None;
     IdentityProvider.SPAcsURL := "" |}.

(** The same provider without any private key. *)
Definition keylessProvider : IdentityProvider.t :=
  {| IdentityProvider.EntityID := "https://idp.example/";
     IdentityProvider.MetadataURL := "https://idp.example/metadata";
     IdentityProvider.SSOURL := "https://idp.example/sso";
     IdentityProvider.SecurityOpts :=
       {| SecurityOpts.AllowSelfSignedCert := false;
          SecurityOpts.TrustUnknownAuthority := false |};
     IdentityProvider.KeyFile := "";
     IdentityProvider.CertFile := "idp.pem";
     IdentityProvider.PrivkeyPEM := "";
     IdentityProvider.PubkeyPEM := "";
     IdentityProvider.pemCert := None;
     IdentityProvider.SPMetadataURL := "";
     IdentityProvider.SPMetadata := None;
     IdentityProvider.SPAcsURL := "" |}.

(** A request of the service provider, with the given metadata and the
    given URL declared by the request. *)
Definition request (meta : option Metadata.t) (url : string) : IdpAuthnRequest.t :=
  {| IdpAuthnRequest.Address := "192.0.2.1";
     IdpAuthnRequest.RelayState := "";
     IdpAuthnRequest.RequestBuffer := "";
     IdpAuthnRequest.Request :=
       {| AuthnRequest.ID := "request-1";
          AuthnRequest.Issuer :=
            {| Issuer.Format := ""; Issuer.Value := "https://sp.example/metadata" |};
          AuthnRequest.AssertionConsumerServiceURL := url |};
     IdpAuthnRequest.ServiceProviderMetadata := meta;
     IdpAuthnRequest.ACSEndpoint := None;
     IdpAuthnRequest.Assertion := None;
     IdpAuthnRequest.AssertionBuffer := None;
     IdpAuthnRequest.Response := None |}.

Definition start (idp : IdentityProvider.t) (r : IdpAuthnRequest.t) : State :=
  {| IDP := idp; req := r; nowCalls := 0; idCalls := 0 |}.

(** A session with a name identifier and the given e-mail address and
    groups, every other field empty. *)
Definition sessionOf (email : string) (groups : list string) : Session.t :=
  {| Session.ID := "session-1";
     Session.CreateTime := 900%Z;
     Session.ExpireTime := 5000%Z;
     Session.Index := "1";
     Session.NameID := "alice";
     Session.Groups := groups;
     Session.UserID := "";
     Session.UserFullname := "";
     Session.UserName := "";
     Session.UserEmail := email;
     Session.UserCommonName := "";
     Session.UserSurname := "";
     Session.UserGivenName := "" |}.

(** A session with an e-mail address and two groups. *)
Definition alice : Session.t := sessionOf "alice@example.org" ["staff"; "admin"].

(** The state after MakeAssertion for the session, from [start]. *)
Definition asserted (idp : IdentityProvider.t) (r : IdpAuthnRequest.t) : State :=
  snd (MakeAssertion quietWorld alice (start idp r)).

(** A request after MakeAssertion whose metadata has no POST endpoint: its
    recipient is empty. *)
Definition undeliverable : State :=
  asserted provider (request (Some redirectOnlyMetadata) "https://sp.example/acs").

End Samples.

(** ** The specification's reading of the response assembler *)

Section AssemblerSpecification.

Import saml.

(** The fields of the provider that MarshalAssertion and MakeResponse never
    write: all but SPMetadataURL and SPMetadata. *)
Definition sameConfiguration (a b : IdentityProvider.t) : Prop :=
  IdentityProvider.EntityID a = IdentityProvider.EntityID b
  /\ IdentityProvider.MetadataURL a = IdentityProvider.MetadataURL b
  /\ IdentityProvider.SSOURL a = IdentityProvider.SSOURL b
  /\ IdentityProvider.SecurityOpts a = IdentityProvider.SecurityOpts b
  /\ IdentityProvider.KeyFile a = IdentityProvider.KeyFile b
  /\ IdentityProvider.CertFile a = IdentityProvider.CertFile b
  /\ IdentityProvider.PrivkeyPEM a = IdentityProvider.PrivkeyPEM b
  /\ IdentityProvider.PubkeyPEM a = IdentityProvider.PubkeyPEM b
  /\ IdentityProvider.pemCert a = IdentityProvider.pemCert b
  /\ IdentityProvider.SPAcsURL a = IdentityProvider.SPAcsURL b.

(** The metadata that GetSPMetadata downloads from the URL of the provider. *)
Definition downloaded (w : World) (url : string) : Metadata.t :=
  fst (xml_Unmarshal w (fst (http_ReadAll w url))).

(** How the provider [b] after a call relates to the provider [a] before
    it, for a request [r]: the untouched fields, the URL of the service
    provider (kept, or overwritten from the request), and its metadata
    (kept, or filled in from the network when there was none). *)
Definition providerAfter (w : World) (r : IdpAuthnRequest.t) (a b : IdentityProvider.t) : Prop :=
  sameConfiguration a b
  /\ (IdentityProvider.SPMetadataURL b = IdentityProvider.SPMetadataURL a
      \/ IdentityProvider.SPMetadataURL b = spMetadataURL r)
  /\ (IdentityProvider.SPMetadata b = IdentityProvider.SPMetadata a
      \/ (IdentityProvider.SPMetadata a = None
          /\ IdentityProvider.SPMetadata b = Some (downloaded w (spMetadataURL r)))).

(** The part of the request that MarshalAssertion never writes: all but
    AssertionBuffer. *)
Definition sameRequest (a b : IdpAuthnRequest.t) : Prop :=
  IdpAuthnRequest.Address a = IdpAuthnRequest.Address b
  /\ IdpAuthnRequest.RelayState a = IdpAuthnRequest.RelayState b
  /\ IdpAuthnRequest.RequestBuffer a = IdpAuthnRequest.RequestBuffer b
  /\ IdpAuthnRequest.Request a = IdpAuthnRequest.Request b
  /\ IdpAuthnRequest.ServiceProviderMetadata a = IdpAuthnRequest.ServiceProviderMetadata b
  /\ IdpAuthnRequest.ACSEndpoint a = IdpAuthnRequest.ACSEndpoint b
  /\ IdpAuthnRequest.Assertion a = IdpAuthnRequest.Assertion b
  /\ IdpAuthnRequest.Response a = IdpAuthnRequest.Response b.

(** The error is not one made by [errors.New] in package saml. *)
Definition foreign (err : option error) : Prop :=
  match err with
  | Some (fundamental _) => False
  | _ => True
  end.

(** The error is not the missing-destination error. *)
Definition notMissingDestination (err : option error) : Prop :=
  err <> Some (fundamental "missing response destination").

(** The first step of MakeResponse: MarshalAssertion when the request has
    no assertion buffer yet. *)
Definition marshalled (w : World) (st : State) : option error * State :=
  match IdpAuthnRequest.AssertionBuffer (req st) with
  | None => MarshalAssertion w st
  | Some _ => (None, st)
  end.

End AssemblerSpecification.


(** ** Further views of the state, for the properties of the code *)

Section Views.

Import saml.

(** The four instants of an assertion: IssueInstant, the NotOnOrAfter of the
    subject-confirmation data, and the NotBefore and NotOnOrAfter of the
    conditions. *)
Definition assertionTimes (r : IdpAuthnRequest.t) : option (Time * Time * Time * Time) :=
  match IdpAuthnRequest.Assertion r with
  | None => None
  | Some a =>
      match Assertion.Subject a, Assertion.Conditions a with
      | Some s, Some c =>
          match Subject.SubjectConfirmation s with
          | Some sc =>
              Some (Assertion.IssueInstant a,
                    SubjectConfirmationData.NotOnOrAfter
                      (SubjectConfirmation.SubjectConfirmationData sc),
                    Conditions.NotBefore c,
                    Conditions.NotOnOrAfter c)
          | None => None
          end
      | _, _ => None
      end
  end.

(** The payload of the response of a request. *)
Definition responsePayload (r : IdpAuthnRequest.t) : option (option string) :=
  match IdpAuthnRequest.Response r with
  | None => None
  | Some resp =>
      option_map EncryptedAssertion.EncryptedData (Response.EncryptedAssertion resp)
  end.

(** The state with the provider's SPMetadataURL set to [url]. *)
Definition withSPMetadataURL (url : string) (st : State) : State :=
  {| IDP := set_SPMetadataURL url (IDP st); req := req st;
     nowCalls := nowCalls st; idCalls := idCalls st |}.

(** The state with the provider's SPMetadata set to [m]. *)
Definition withSPMetadata (m : Metadata.t) (st : State) : State :=
  {| IDP := set_SPMetadata (Some m) (IDP st); req := req st;
     nowCalls := nowCalls st; idCalls := idCalls st |}.


(** A run of the engine that fails with status 1 and writes nothing. *)
Definition silentFailure : xmlsec.Process := completed "" "" (Some "exit status 1").


(** The state of the sample request after MakeAssertion and
    MarshalAssertion: its assertion buffer is present. *)
Definition marshalledSample : State :=
  snd (MarshalAssertion quietWorld (asserted provider (request (Some spMetadata) ""))).

End Views.

(** * Properties *)

(** ** Strings *)

Section StringFacts.

Import strings.

Lemma append_empty_r (s : string) : s ++ "" = s.
Proof. induction s as [|c s IH]; simpl; congruence. Qed.

Lemma append_assoc (a b c : string) : (a ++ b) ++ c = a ++ (b ++ c).
Proof. induction a as [|x a IH]; simpl; congruence. Qed.

Lemma occurs_append (c : ascii) (a b : string) :
  occurs c (a ++ b) = occurs c a || occurs c b.
Proof.
  induction a as [|x a IH]; simpl; [reflexivity|].
  now rewrite IH, orb_assoc.
Qed.

Lemma reverse_append (a b : string) : reverse (a ++ b) = reverse b ++ reverse a.
Proof.
  induction a as [|x a IH]; simpl.
  - now rewrite append_empty_r.
  - now rewrite IH, append_assoc.
Qed.

Lemma reverse_involutive (s : string) : reverse (reverse s) = s.
Proof.
  induction s as [|c s IH]; simpl; [reflexivity|].
  rewrite reverse_append, IH. reflexivity.
Qed.

Lemma occurs_reverse (c : ascii) (s : string) : occurs c (reverse s) = occurs c s.
Proof.
  induction s as [|d s IH]; simpl; [reflexivity|].
  rewrite occurs_append, IH. simpl. rewrite orb_false_r. apply orb_comm.
Qed.

Lemma HasPrefix_skip (s r : string) :
  HasPrefix s r = true -> s = r ++ skip (length r) s.
Proof.
  revert s. induction r as [|p r IH]; intros s H.
  - now destruct s.
  - destruct s as [|c s]; simpl in H; [discriminate|].
    destruct (Ascii.eqb_spec c p) as [->|]; [|discriminate].
    simpl. f_equal. now apply IH.
Qed.

(** A byte that occurs in no encoding of the table occurs in nothing that
    the trimming loop drops. *)
Lemma trimLeft_dropped (c : ascii) (runes : list string) :
  forallb (fun r => negb (occurs c r)) runes = true ->
  forall fuel s, exists l, s = l ++ trimLeft runes fuel s /\ occurs c l = false.
Proof.
  intros Hc. induction fuel as [|fuel IH]; intros s; simpl.
  - exists "". now split.
  - unfold leadingSpace. destruct (find (HasPrefix s) runes) as [r|] eqn:F.
    + apply find_some in F. destruct F as [Hin Hp].
      destruct (IH (skip (length r) s)) as [l [El Ol]].
      exists (r ++ l). split.
      * rewrite append_assoc, <- El. now apply HasPrefix_skip.
      * rewrite occurs_append, Ol, orb_false_r.
        rewrite forallb_forall in Hc. specialize (Hc r Hin).
        now apply negb_true_iff in Hc.
    + exists "". now split.
Qed.

Lemma HasPrefix_not_occurs (c : ascii) (m r : string) :
  endsWith c m = true -> occurs c r = false -> HasPrefix r m = false.
Proof.
  revert r. induction m as [|d m IH]; intros r Hm Hr; [discriminate|].
  destruct r as [|e r]; [reflexivity|]. simpl in Hr. apply orb_false_iff in Hr.
  destruct Hr as [He Hr]. simpl.
  destruct (Ascii.eqb_spec e d) as [->|]; [|reflexivity].
  destruct m as [|d' m].
  - simpl in Hm. congruence.
  - apply IH; assumption.
Qed.

Lemma HasPrefix_append_r (c : ascii) (m t r : string) :
  endsWith c m = true -> occurs c r = false ->
  HasPrefix (t ++ r) m = HasPrefix t m.
Proof.
  revert t. induction m as [|d m IH]; intros t Hm Hr; [discriminate|].
  destruct t as [|e t].
  - simpl append. rewrite (HasPrefix_not_occurs c); auto.
  - simpl. destruct (Ascii.eqb e d); [|reflexivity].
    destruct m as [|d' m]; [reflexivity|]. apply IH; assumption.
Qed.

Lemma Contains_not_occurs (c : ascii) (m r : string) :
  endsWith c m = true -> occurs c r = false -> Contains r m = false.
Proof.
  intros Hm. induction r as [|e r IH]; intros Hr.
  - destruct m; [discriminate|reflexivity].
  - cbn [Contains]. rewrite (HasPrefix_not_occurs c); auto.
    simpl in Hr. apply orb_false_iff in Hr. now apply IH.
Qed.

(** Bytes appended after [t] that cannot end [m] add no occurrence of [m]. *)
Lemma Contains_append_r (c : ascii) (m t r : string) :
  endsWith c m = true -> occurs c r = false ->
  Contains (t ++ r) m = Contains t m.
Proof.
  intros Hm Hr. induction t as [|e t IH].
  - simpl append. rewrite (Contains_not_occurs c); auto.
    destruct m; [discriminate|reflexivity].
  - change (String e t ++ r) with (String e (t ++ r)). cbn [Contains].
    rewrite IH. f_equal.
    change (String e (t ++ r)) with (String e t ++ r).
    now apply (HasPrefix_append_r c).
Qed.

(** Bytes put before [t] that cannot start [m] add no occurrence of [m]. *)
Lemma Contains_append_l (c : ascii) (m l t : string) :
  occurs c l = false ->
  Contains (l ++ t) (String c m) = Contains t (String c m).
Proof.
  induction l as [|e l IH]; intros Hl; [reflexivity|].
  simpl in Hl. apply orb_false_iff in Hl. destruct Hl as [He Hl].
  change (String e l ++ t) with (String e (l ++ t)). cbn [Contains HasPrefix].
  rewrite He. simpl. now apply IH.
Qed.

(** An occurrence stays when bytes are put before it. *)
Lemma Contains_append_keep (m l r : string) :
  Contains r m = true -> Contains (l ++ r) m = true.
Proof.
  intros H. induction l as [|e l IH]; [exact H|].
  change (String e l ++ r) with (String e (l ++ r)). cbn [Contains].
  rewrite IH. apply orb_true_r.
Qed.

(** Trimming white space neither removes nor creates an occurrence of a
    text that starts with [c] and ends with [d], when neither byte is part
    of a white-space character. *)
Lemma Contains_TrimSpace (c d : ascii) (m s : string) :
  forallb (fun r => negb (occurs c r)) spaceRunes = true ->
  forallb (fun r => negb (occurs d r)) (map reverse spaceRunes) = true ->
  endsWith d (String c m) = true ->
  Contains (TrimSpace s) (String c m) = Contains s (String c m).
Proof.
  intros Hc Hd Hm. unfold TrimSpace.
  destruct (trimLeft_dropped c spaceRunes Hc (length s) s) as [l [El Ol]].
  fold (TrimLeftSpace s) in El. remember (TrimLeftSpace s) as u eqn:Hu. clear Hu.
  destruct (trimLeft_dropped d (map reverse spaceRunes) Hd (length u) (reverse u))
    as [r [Er Or]].
  assert (Eu : u = TrimRightSpace u ++ reverse r).
  { unfold TrimRightSpace. rewrite <- reverse_append, <- Er.
    symmetry. apply reverse_involutive. }
  pose proof (Contains_append_l c m l u Ol) as Hl. rewrite <- El in Hl.
  assert (Hr : Contains (TrimRightSpace u ++ reverse r) (String c m)
               = Contains (TrimRightSpace u) (String c m)).
  { apply (Contains_append_r d); [assumption|]. now rewrite occurs_reverse. }
  rewrite <- Eu in Hr. congruence.
Qed.

End StringFacts.

(** ** The classification of diagnostics *)

Section Classification.

Import strings.

Ltac marker :=
  intros s; unfold message;
  match goal with
  | |- Contains (?p ++ TrimSpace s) (String ?c ?m) = _ =>
      transitivity (Contains (TrimSpace s) (String c m));
      [ generalize (TrimSpace s); intros t; vm_compute; reflexivity
      | match eval vm_compute in (reverse (String c m)) with
        | String ?d _ => apply (Contains_TrimSpace c d); vm_compute; reflexivity
        end ]
  end.

Lemma message_signature_failed :
  forall s, Contains (message s) "signature failed" = Contains s "signature failed".
Proof. marker. Qed.

Lemma message_validity_error :
  forall s, Contains (message s) "validity error" = Contains s "validity error".
Proof. marker. Qed.

Lemma message_self_signed :
  forall s, Contains (message s) "msg=self signed certificate"
            = Contains s "msg=self signed certificate".
Proof. marker. Qed.

Lemma message_unknown_issuer :
  forall s, Contains (message s) "msg=unable to get local issuer certificate"
            = Contains s "msg=unable to get local issuer certificate".
Proof. marker. Qed.

(** C2. For every diagnostic string, xmlsecErr gives the one outcome that
    the first-match-wins reading of the string itself gives: no error when
    it begins with "OK"; else the generic error when it contains "signature
    failed"; else ErrValidityError when it contains "validity error"; else
    ErrSelfSignedCertificate when it contains "msg=self signed certificate";
    else ErrUnknownIssuer when it contains "msg=unable to get local issuer
    certificate"; else the generic error.  The generic error carries the
    text "xmlsec: " followed by the trimmed diagnostic. *)
Theorem xmlsecErr_classify :
  forall s : string,
    xmlsec.xmlsecErr s = errorOf (classify s) (errorString ("xmlsec: " ++ TrimSpace s)).
Proof.
  intros s. unfold xmlsec.xmlsecErr, classify. cbn [Error].
  fold (message s).
  rewrite message_signature_failed, message_validity_error,
    message_self_signed, message_unknown_issuer.
  destruct (HasPrefix s "OK"); [reflexivity|].
  destruct (Contains s "signature failed"); [reflexivity|].
  destruct (Contains s "validity error"); [reflexivity|].
  destruct (Contains s "msg=self signed certificate"); [reflexivity|].
  destruct (Contains s "msg=unable to get local issuer certificate"); reflexivity.
Qed.

End Classification.

(** ** The security exception policy *)

(** C3. A self-signed-certificate error is waived (IsSecurityException is
    false) exactly when AllowSelfSignedCert is set; an unknown-issuer error
    is waived exactly when TrustUnknownAuthority is set; for every other
    error, and for no error at all, IsSecurityException is true whatever
    the configuration. *)
Theorem IsSecurityException_waiver :
  (forall e opts,
      saml.IsSecurityException (Some (ErrSelfSignedCertificate e)) opts = false
      <-> saml.SecurityOpts.AllowSelfSignedCert opts = true)
  /\ (forall e opts,
      saml.IsSecurityException (Some (ErrUnknownIssuer e)) opts = false
      <-> saml.SecurityOpts.TrustUnknownAuthority opts = true)
  /\ (forall err opts,
      match err with
      | Some (ErrSelfSignedCertificate _) | Some (ErrUnknownIssuer _) => True
      | _ => saml.IsSecurityException err opts = true
      end).
Proof.
  unfold saml.IsSecurityException. repeat split.
  - cbn. destruct (saml.SecurityOpts.AllowSelfSignedCert opts); [reflexivity|discriminate].
  - intros ->. reflexivity.
  - cbn. destruct (saml.SecurityOpts.TrustUnknownAuthority opts); [reflexivity|discriminate].
  - intros ->. reflexivity.
  - intros [[]|] opts; cbn; trivial.
Qed.

(** ** The argument vector of Sign and Verify *)

Section Arguments.

Import xmlsec.

Lemma flatten_app (a b : list (string * string)) :
  flatten (a ++ b) = (flatten a ++ flatten b)%list.
Proof.
  induction a as [|[f v] a IH]; simpl; [reflexivity|]. now rewrite IH.
Qed.

(** The options that a list of extra ID attributes stands for. *)
Lemma fold_left_IDAttrs (attrs : list string) :
  forall args,
    fold_left (fun args v => append args ["--id-attr:ID"; v]) attrs args
    = (args ++ flatten (map (fun v => ("--id-attr:ID", v)) attrs))%list.
Proof.
  induction attrs as [|v attrs IH]; intros args; simpl.
  - now rewrite app_nil_r.
  - rewrite IH. unfold append. now rewrite <- app_assoc.
Qed.

(** applyOptions only appends options, and none of them is
    [--enabled-reference-uris]. *)
Lemma applyOptions_appends (args : list string) (opts : option ValidationOptions) :
  exists added,
    applyOptions args opts = (args ++ flatten added)%list
    /\ filter isReferenceURIs added = [].
Proof.
  destruct opts as [[dtd hack attrs]|]; unfold applyOptions; cbn [DTDFile EnableIDAttrHack IDAttrs].
  - destruct hack.
    + rewrite fold_left_IDAttrs. unfold append.
      destruct (negb (dtd =? "")).
      * exists ((("--dtd-file", dtd)
                 :: [("--id-attr:ID", attrNameResponse);
                     ("--id-attr:ID", attrNameAssertion);
                     ("--id-attr:ID", attrNameAuthnRequest)])
                ++ map (fun v => ("--id-attr:ID", v)) attrs)%list.
        split.
        -- rewrite flatten_app. simpl. rewrite <- !app_assoc. reflexivity.
        -- rewrite filter_app. cbn. induction attrs; [reflexivity|assumption].
      * exists ([("--id-attr:ID", attrNameResponse);
                 ("--id-attr:ID", attrNameAssertion);
                 ("--id-attr:ID", attrNameAuthnRequest)]
                ++ map (fun v => ("--id-attr:ID", v)) attrs)%list.
        split.
        -- rewrite flatten_app. simpl. rewrite <- !app_assoc. reflexivity.
        -- rewrite filter_app. cbn. induction attrs; [reflexivity|assumption].
    + destruct (negb (dtd =? "")).
      * exists [("--dtd-file", dtd)]. split; reflexivity.
      * exists []. split; [now rewrite app_nil_r | reflexivity].
  - exists []. split; [now rewrite app_nil_r | reflexivity].
Qed.

(** C7. Whatever the key path and the ValidationOptions, the command that
    Verify and Sign run is xmlsec1 with the mode flag, a list of options
    (each a flag followed by its value) and the input file; among these
    options, --enabled-reference-uris occurs exactly once, with the value
    "empty,same-doc".  No path or option value supplied by the caller
    stands where a flag stands, so none can name the option again. *)
Theorem reference_uris_fixed :
  forall (path : string) (opts : option ValidationOptions),
    (exists options,
        (forall os input,
            Verify os input path opts
            = Verify_result
                (exec_Command os "xmlsec1"
                   ("--verify" :: flatten options ++ ["/dev/stdin"])%list input))
        /\ filter isReferenceURIs options = [("--enabled-reference-uris", "empty,same-doc")])
    /\ (exists options,
        (forall os input,
            Sign os input path opts
            = Sign_result
                (exec_Command os "xmlsec1"
                   ("--sign" :: flatten options ++ ["/dev/stdin"])%list input))
        /\ filter isReferenceURIs options = [("--enabled-reference-uris", "empty,same-doc")]).
Proof.
  intros path opts. split.
  - destruct (applyOptions_appends
                ["xmlsec1"; "--verify"; "--pubkey-cert-pem"; path;
                 "--enabled-reference-uris"; "empty,same-doc"] opts) as [added [E F]].
    exists ([("--pubkey-cert-pem", path); ("--enabled-reference-uris", "empty,same-doc")]
            ++ added)%list.
    split.
    + intros os input. unfold Verify, Command, Verify_args, append.
      rewrite E, flatten_app. reflexivity.
    + rewrite filter_app, F. reflexivity.
  - destruct (applyOptions_appends
                ["xmlsec1"; "--sign"; "--privkey-pem"; path;
                 "--enabled-reference-uris"; "empty,same-doc"] opts) as [added [E F]].
    exists ([("--privkey-pem", path); ("--enabled-reference-uris", "empty,same-doc")]
            ++ added ++ [("--output", "/dev/stdout")])%list.
    split.
    + intros os input. unfold Sign, Command, Sign_args, append.
      rewrite E, !flatten_app. cbn. rewrite <- !app_assoc. reflexivity.
    + rewrite !filter_app, F. reflexivity.
Qed.

End Arguments.

(** ** Validity errors in Sign and Verify *)

Section ValidityError.

Import strings xmlsec.

Lemma Contains_nonempty (s m : string) :
  Contains s m = true -> m <> "" -> (0 <? length s)%nat = true.
Proof.
  destruct s; [|reflexivity]. destruct m; [congruence|discriminate].
Qed.

(** The combined text begins with "OK" exactly when the output does. *)
Lemma HasPrefix_OK_combined (res resErr : string) :
  HasPrefix (res ++ newline ++ resErr) "OK" = HasPrefix res "OK".
Proof.
  destruct res as [|a [|b res]]; cbn; reflexivity.
Qed.

(** The error that Sign and Verify make of a completed run whose diagnostic
    contains "validity error" and whose output does not begin with "OK". *)
Lemma xmlsecErr_validity (res resErr : string) :
  Contains resErr "validity error" = true ->
  HasPrefix res "OK" = false ->
  let s := res ++ newline ++ resErr in
  xmlsecErr s =
    Some (if Contains s "signature failed" then errorString (message s)
          else ErrValidityError (errorString (message s))).
Proof.
  intros Hv Hok s. rewrite xmlsecErr_classify. unfold classify. fold (message s).
  unfold s at 1. rewrite HasPrefix_OK_combined, Hok.
  destruct (Contains s "signature failed"); [reflexivity|].
  unfold s. rewrite !Contains_append_keep by assumption. reflexivity.
Qed.

(** C5, as the code has it. When the diagnostic stream contains "validity
    error" and the output stream does not begin with "OK", Verify and Sign
    fail whatever cmd.Wait returns; when every call on the child process
    succeeded the failure is the classified validity error, unless the
    combined text also contains "signature failed": then it is the generic
    signature-failure error. *)
Theorem validity_error_fails :
  forall cmd : Process,
    Contains (fst (stderr_ReadAll cmd)) "validity error" = true ->
    HasPrefix (fst (stdout_ReadAll cmd)) "OK" = false ->
    (Verify_result cmd <> None /\ snd (Sign_result cmd) <> None)
    /\ (delivered cmd = true ->
        let s := fst (stdout_ReadAll cmd) ++ newline ++ fst (stderr_ReadAll cmd) in
        let failure :=
          if Contains s "signature failed" then errorString (message s)
          else ErrValidityError (errorString (message s)) in
        Verify_result cmd = Some failure
        /\ Sign_result cmd = (Some (fst (stdout_ReadAll cmd)), Some failure)).
Proof.
  intros [pin pout perr start wr cl [res rerr] [resErr eerr] wait]; cbn [fst snd
    stderr_ReadAll stdout_ReadAll]. intros Hv Hok.
  pose proof (xmlsecErr_validity res resErr Hv Hok) as E. cbv zeta in E.
  assert (L : (0 <? length resErr)%nat = true)
    by (apply (Contains_nonempty _ _ Hv); discriminate).
  unfold Verify_result, Sign_result, delivered, isValidityError, bytes.Contains.
  cbn [cmd_StdinPipe cmd_StdoutPipe cmd_StderrPipe cmd_Start stdin_Write stdin_Close
       stdout_ReadAll stderr_ReadAll cmd_Wait fst snd].
  rewrite Hv, orb_true_r, L, E.
  destruct pin, pout, perr, start, wr, cl, rerr, eerr;
    (split; [split; cbn; discriminate | intros D; try discriminate D]).
  cbv zeta. split; reflexivity.
Qed.

(** The theorem at a run that writes a document, reports a validity error
    and exits with status 0. *)
Lemma validity_error_fails_witness :
  (Verify_result signedWithValidityError <> None
   /\ snd (Sign_result signedWithValidityError) <> None)
  /\ (delivered signedWithValidityError = true ->
      let s := fst (stdout_ReadAll signedWithValidityError) ++ newline
               ++ fst (stderr_ReadAll signedWithValidityError) in
      let failure :=
        if Contains s "signature failed" then errorString (message s)
        else ErrValidityError (errorString (message s)) in
      Verify_result signedWithValidityError = Some failure
      /\ Sign_result signedWithValidityError
         = (Some (fst (stdout_ReadAll signedWithValidityError)), Some failure)).
Proof.
  apply (validity_error_fails signedWithValidityError); reflexivity.
Defined.

(** C5 as stated fails: the engine prints OK, its diagnostic stream contains
    "validity error", it exits with status 0, and both Verify and Sign
    return no error. *)
Lemma validity_error_after_OK_passes :
  Contains (fst (stderr_ReadAll okWithValidityError)) "validity error" = true
  /\ cmd_Wait okWithValidityError = None
  /\ Verify (always okWithValidityError) "<Response/>" "sp.pem" None = None
  /\ Sign (always okWithValidityError) "<Assertion/>" "idp.key" None = (Some "OK", None).
Proof. repeat split. Qed.

End ValidityError.

(** ** The assertion builder *)

Section Builder.

Import saml.

(** Cert and Metadata leave the request alone. *)
Lemma Cert_req (w : World) (st : State) : req (snd (Cert w st)) = req st.
Proof.
  unfold Cert, bind, getIDP, setIDP, ret.
  destruct (IdentityProvider.pemCert (IDP st)); [reflexivity|].
  destruct (PubkeyFile w (IDP st)) as [certFile [err|]]; [reflexivity|].
  destruct (os_Open w certFile); [reflexivity|].
  destruct (ioutil_ReadAll w certFile) as [buf [err|]]; [reflexivity|].
  destruct (pem_Decode w buf); reflexivity.
Qed.

Lemma Metadata_req (w : World) (st : State) : req (snd (Metadata_ w st)) = req st.
Proof.
  unfold Metadata_, bind. pose proof (Cert_req w st) as H.
  destruct (Cert w st) as [[cert|err] st1]; simpl in *; exact H.
Qed.

(** What a successful MakeAssertion leaves in the request: an assertion
    whose recipient and attributes are those computed from the request and
    the session it was called with. *)
Lemma MakeAssertion_builds (w : World) (session : Session.t) (st st' : State) :
  MakeAssertion w session st = (None, st') ->
  assertionRecipient (req st') = Some (Recipient (req st))
  /\ assertionAttributes (req st') = Some (attributes session).
Proof.
  unfold MakeAssertion, bind.
  pose proof (Cert_req w st) as H1.
  destruct (Cert w st) as [[cert|err] st1]; simpl in H1; [|discriminate].
  pose proof (Metadata_req w st1) as H2.
  destruct (Metadata_ w st1) as [[idpMetadata|err] st2]; simpl in H2; [|discriminate].
  cbn. intros E. injection E as <-. cbn. rewrite H2, H1. split; reflexivity.
Qed.

(** The loop over the endpoints finds what [find] finds. *)
Lemma firstPOST_find (l : list IndexedEndpoint.t) :
  firstPOST l = option_map IndexedEndpoint.Location (find isPOST l).
Proof.
  induction l as [|acs l IH]; simpl; [reflexivity|].
  unfold isPOST at 1. destruct (IndexedEndpoint.Binding acs =? _); [reflexivity|exact IH].
Qed.

Lemma Recipient_resolved (r : IdpAuthnRequest.t) : Recipient r = recipientResolved r.
Proof.
  unfold Recipient, recipientResolved, descriptor.
  destruct (IdpAuthnRequest.ACSEndpoint r); [reflexivity|].
  destruct (IdpAuthnRequest.ServiceProviderMetadata r) as [meta|]; [|reflexivity].
  destruct (Metadata.SPSSODescriptor meta) as [sp|]; [|reflexivity].
  rewrite firstPOST_find.
  destruct (find isPOST (SPSSODescriptor.AssertionConsumerService sp)); reflexivity.
Qed.

(** C1, as the code has it. After a successful MakeAssertion the recipient
    of the subject-confirmation data is: the location of the explicit
    endpoint when there is one; else, when the request has service-provider
    metadata with a descriptor, the location of its first endpoint with the
    HTTP-POST binding, or the empty string when it has none; else the URL
    declared in the request. *)
Theorem recipient_resolution :
  forall (w : World) (session : Session.t) (st st' : State),
    MakeAssertion w session st = (None, st') ->
    assertionRecipient (req st') = Some (recipientResolved (req st)).
Proof.
  intros w session st st' H.
  apply MakeAssertion_builds in H. destruct H as [H _].
  now rewrite <- Recipient_resolved.
Qed.

(** The theorem for a request with metadata that has a POST endpoint. *)
Lemma recipient_resolution_witness :
  let st := start provider (request (Some spMetadata) "https://sp.example/acs") in
  MakeAssertion quietWorld alice st = (None, snd (MakeAssertion quietWorld alice st))
  /\ assertionRecipient (req (snd (MakeAssertion quietWorld alice st)))
     = Some (recipientResolved (req st)).
Proof.
  intros st.
  assert (H : MakeAssertion quietWorld alice st
              = (None, snd (MakeAssertion quietWorld alice st)))
    by (vm_compute; reflexivity).
  split; [exact H | exact (recipient_resolution _ _ _ _ H)].
Defined.

(** C1 as stated fails: the request has no explicit endpoint, its metadata
    has no endpoint with the POST binding, the request declares a URL, and
    the recipient is empty, not that URL. *)
Lemma recipient_ignores_request_URL :
  let r := request (Some redirectOnlyMetadata) "https://sp.example/acs" in
  fst (MakeAssertion quietWorld (sessionOf "alice@example.org" []) (start provider r)) = None
  /\ assertionRecipient
       (req (snd (MakeAssertion quietWorld (sessionOf "alice@example.org" []) (start provider r))))
     = Some ""
  /\ recipientByPrecedence r = "https://sp.example/acs".
Proof. vm_compute. repeat split. Qed.

Lemma fold_left_values (groups : list string) :
  forall values,
    fold_left (fun values group => xmlsec.append values [stringValue group]) groups values
    = (values ++ map stringValue groups)%list.
Proof.
  induction groups as [|g groups IH]; intros values; simpl.
  - now rewrite app_nil_r.
  - rewrite IH. unfold xmlsec.append. now rewrite <- app_assoc.
Qed.

(** One conditional [append] of MakeAssertion. *)
Lemma append_unless_empty (field : string) (acc : list Attribute.t) (a : Attribute.t) :
  (if negb (field =? "") then xmlsec.append acc [a] else acc)
  = (acc ++ (if field =? "" then [] else [a]))%list.
Proof.
  destruct (field =? ""); cbn [negb]; [now rewrite app_nil_r|reflexivity].
Qed.

(** The statements of the code build the list that the table describes. *)
Lemma attributes_table (session : Session.t) : attributes session = tableAttributes session.
Proof.
  unfold attributes, tableAttributes, attributeTable. cbv zeta.
  rewrite !append_unless_empty, fold_left_values.
  cbn [flat_map fst snd entry groupsRow map].
  rewrite <- !app_assoc. cbn [app].
  repeat (f_equal; []).
  destruct (Session.Groups session); cbn; now rewrite ?app_nil_r.
Qed.

(** C4, as the code has it. After a successful MakeAssertion the attribute
    statement holds, in the order of the fixed table, one entry for each
    row whose source field is not empty, carrying that field as its single
    value, and then, when the session has groups, one entry carrying one
    value per group.  The e-mail address is the source of two rows
    (eduPersonPrincipalName and MASTEmail).  A row whose source is empty
    gives no entry. *)
Theorem attribute_statement :
  forall (w : World) (session : Session.t) (st st' : State),
    MakeAssertion w session st = (None, st') ->
    assertionAttributes (req st') = Some (tableAttributes session).
Proof.
  intros w session st st' H.
  apply MakeAssertion_builds in H. destruct H as [_ H].
  now rewrite <- attributes_table.
Qed.

(** The theorem for a session with an e-mail address and two groups. *)
Lemma attribute_statement_witness :
  let st := start provider (request (Some spMetadata) "") in
  MakeAssertion quietWorld alice st = (None, snd (MakeAssertion quietWorld alice st))
  /\ assertionAttributes (req (snd (MakeAssertion quietWorld alice st)))
     = Some (tableAttributes alice).
Proof.
  intros st.
  assert (H : MakeAssertion quietWorld alice st
              = (None, snd (MakeAssertion quietWorld alice st)))
    by (vm_compute; reflexivity).
  split; [exact H | exact (attribute_statement _ _ _ _ H)].
Defined.

(** C4 as stated fails: a session whose only non-empty source field is the
    e-mail address gets two attribute entries, not one. *)
Lemma email_gives_two_attributes :
  let session := sessionOf "alice@example.org" [] in
  let st := start provider (request (Some spMetadata) "") in
  nonEmptyFields session = 1
  /\ fst (MakeAssertion quietWorld session st) = None
  /\ option_map (@List.length _)
       (assertionAttributes (req (snd (MakeAssertion quietWorld session st))))
     = Some 2.
Proof. vm_compute. repeat split. Qed.

End Builder.

(** ** The response assembler *)

Section Assembler.

Import saml.

Lemma sameConfiguration_refl (a : IdentityProvider.t) : sameConfiguration a a.
Proof. repeat split. Qed.

Lemma xmlsecErr_foreign (s : string) : foreign (xmlsec.xmlsecErr s).
Proof.
  unfold xmlsec.xmlsecErr.
  repeat match goal with
         | |- context [if ?b then _ else _] => destruct b
         end; exact I.
Qed.

Lemma Sign_foreign (os : xmlsec.OS) (input key : string) (opts : option xmlsec.ValidationOptions) :
  foreign (snd (xmlsec.Sign os input key opts)).
Proof.
  unfold xmlsec.Sign, xmlsec.Sign_result.
  destruct (xmlsec.Command os _ input)
    as [pin pout perr start wr cl [res rerr] [resErr eerr] wait].
  cbn [xmlsec.cmd_StdinPipe xmlsec.cmd_StdoutPipe xmlsec.cmd_StderrPipe xmlsec.cmd_Start
       xmlsec.stdin_Write xmlsec.stdin_Close xmlsec.stdout_ReadAll xmlsec.stderr_ReadAll
       xmlsec.cmd_Wait].
  destruct pout, perr, pin, start, wr, cl, rerr, eerr; try exact I.
  destruct (_ || _); [|exact I].
  destruct (0 <? length resErr)%nat; cbn [snd].
  - apply xmlsecErr_foreign.
  - destruct wait; exact I.
Qed.

Lemma run_foreign (cmd : xmlsec.Process) : foreign (snd (xmlsec.run cmd)).
Proof.
  unfold xmlsec.run.
  destruct cmd as [pin pout perr start wr cl [res rerr] [resErr eerr] wait].
  cbn [xmlsec.cmd_StdinPipe xmlsec.cmd_StdoutPipe xmlsec.cmd_StderrPipe xmlsec.cmd_Start
       xmlsec.stdin_Write xmlsec.stdin_Close xmlsec.stdout_ReadAll xmlsec.stderr_ReadAll
       xmlsec.cmd_Wait].
  destruct pin, pout, perr, start, wr, cl, rerr, eerr; try exact I.
  destruct wait; cbn [failed option_map]; [|exact I].
  destruct (0 <? length resErr)%nat; cbn [snd]; [apply xmlsecErr_foreign|exact I].
Qed.

Lemma Encrypt_foreign (os : xmlsec.OS) (tpl : xmlsec.EncryptedData) (input cert method : string) :
  foreign (snd (xmlsec.Encrypt os tpl input cert method)).
Proof.
  unfold xmlsec.Encrypt.
  destruct (xmlsec.ioutil_TempFile os _ _) as [fp [err|]]; [exact I|].
  destruct (xmlsec.xml_MarshalIndent os tpl) as [out [err|]]; [exact I|].
  destruct (xmlsec.file_Write os fp out); [exact I|].
  destruct (xmlsec.file_Close os fp); [exact I|].
  apply run_foreign.
Qed.

Lemma foreign_notMissingDestination (err : option error) :
  foreign err -> notMissingDestination err.
Proof. intros H E. subst err. exact H. Qed.

(** GetSPMetadata writes nothing but the metadata of a provider that had
    none. *)
Lemma GetSPMetadata_state (w : World) (st : State) :
  let st' := snd (GetSPMetadata w st) in
  req st' = req st /\ nowCalls st' = nowCalls st /\ idCalls st' = idCalls st
  /\ (IDP st' = IDP st
      \/ (IdentityProvider.SPMetadata (IDP st) = None
          /\ IDP st' = set_SPMetadata
                         (Some (downloaded w (IdentityProvider.SPMetadataURL (IDP st))))
                         (IDP st)))
  /\ match fst (GetSPMetadata w st) with
     | inr err => notMissingDestination (Some err)
     | inl _ => True
     end.
Proof.
  unfold GetSPMetadata, bind, getIDP, setIDP, ret, downloaded.
  destruct (IdentityProvider.SPMetadata (IDP st)) eqn:M; cbn; [auto 6|].
  destruct (IdentityProvider.SPMetadataURL (IDP st) =? ""); cbn;
    [repeat split; auto; discriminate|].
  destruct (http_Get w _); cbn; [repeat split; auto; discriminate|].
  destruct (http_ReadAll w _) as [buf [err|]]; cbn; [repeat split; auto; discriminate|].
  destruct (xml_Unmarshal w buf) as [metadata [err|]]; cbn;
    [repeat split; auto; discriminate|].
  repeat split; auto.
Qed.

Lemma GetSPCertFile_state (w : World) (st : State) :
  let st' := snd (GetSPCertFile w st) in
  req st' = req st /\ nowCalls st' = nowCalls st /\ idCalls st' = idCalls st
  /\ (IDP st' = IDP st
      \/ (IdentityProvider.SPMetadata (IDP st) = None
          /\ IDP st' = set_SPMetadata
                         (Some (downloaded w (IdentityProvider.SPMetadataURL (IDP st))))
                         (IDP st)))
  /\ notMissingDestination (snd (fst (GetSPCertFile w st))).
Proof.
  unfold GetSPCertFile, bind, ret.
  pose proof (GetSPMetadata_state w st) as H. cbv zeta in H.
  destruct (GetSPMetadata w st) as [[meta|err] st1]; cbn [fst snd] in *.
  - destruct H as (Hr & Hn & Hi & Hp & _).
    assert (forall (x : string * option error),
               notMissingDestination (snd x) ->
               req (snd (x, st1)) = req st /\ nowCalls (snd (x, st1)) = nowCalls st
               /\ idCalls (snd (x, st1)) = idCalls st
               /\ (IDP (snd (x, st1)) = IDP st
                   \/ (IdentityProvider.SPMetadata (IDP st) = None
                       /\ IDP (snd (x, st1))
                          = set_SPMetadata
                              (Some (downloaded w (IdentityProvider.SPMetadataURL (IDP st))))
                              (IDP st)))
               /\ notMissingDestination (snd (fst (x, st1)))) as K
      by (intros x Hx; cbn; auto).
    destruct (Metadata.SPSSODescriptor meta) as [sp|]; [|apply K; discriminate].
    destruct (_ =? ""); [apply K; discriminate|].
    destruct (writeFile w _) as [path [err|]]; apply K; discriminate.
  - destruct H as (Hr & Hn & Hi & Hp & He). auto.
Qed.

Lemma PrivkeyFile_error (w : World) (idp : IdentityProvider.t) :
  notMissingDestination (snd (PrivkeyFile w idp)).
Proof.
  unfold PrivkeyFile.
  destruct (negb (IdentityProvider.KeyFile idp =? "")); [discriminate|].
  destruct (negb (IdentityProvider.PrivkeyPEM idp =? "")); [|discriminate].
  destruct (writeFile w _) as [path [err|]]; discriminate.
Qed.

Lemma sameRequest_refl (r : IdpAuthnRequest.t) : sameRequest r r.
Proof. repeat split. Qed.

Lemma providerAfter_refl (w : World) (r : IdpAuthnRequest.t) (a : IdentityProvider.t) :
  providerAfter w r a a.
Proof. split; [apply sameConfiguration_refl|]. auto. Qed.

(** What MarshalAssertion does to the state, and which errors it returns. *)
Lemma MarshalAssertion_state (w : World) (st st' : State) (err : option error) :
  MarshalAssertion w st = (err, st') ->
  sameRequest (req st) (req st')
  /\ nowCalls st' = nowCalls st /\ idCalls st' = idCalls st
  /\ providerAfter w (req st) (IDP st) (IDP st')
  /\ notMissingDestination err
  /\ (err <> None -> req st' = req st).
Proof.
  assert (Stop : forall e : option error,
             notMissingDestination e -> (e, st) = (err, st') ->
             sameRequest (req st) (req st')
             /\ nowCalls st' = nowCalls st /\ idCalls st' = idCalls st
             /\ providerAfter w (req st) (IDP st) (IDP st')
             /\ notMissingDestination err
             /\ (err <> None -> req st' = req st)).
  { intros e H E. injection E as <- <-.
    repeat split; auto. }
  unfold MarshalAssertion, bind, getReq, getIDP, ret.
  destruct (xml_Marshal w _) as [buf [e|]]; [apply Stop; discriminate|].
  pose proof (PrivkeyFile_error w (IDP st)) as HP.
  destruct (PrivkeyFile w (IDP st)) as [keyFile [e|]]; [apply Stop; exact HP|]. clear HP.
  pose proof (Sign_foreign (os w) buf keyFile
                (Some {| xmlsec.DTDFile := ""; xmlsec.EnableIDAttrHack := true;
                         xmlsec.IDAttrs := [] |})) as HS.
  destruct (xmlsec.Sign _ _ _ _) as [signed serr]. cbn [snd] in HS.
  destruct (fatal serr (IDP st));
    [apply Stop; now apply foreign_notMissingDestination|].
  clear Stop HS. unfold setIDP. cbv beta iota.
  match goal with
  | |- context [GetSPCertFile w ?s] => set (st1 := s)
  end.
  pose proof (GetSPCertFile_state w st1) as HC. cbv zeta in HC.
  destruct (GetSPCertFile w st1) as [[spCertFile cerr] st2]. cbn [fst snd] in HC.
  destruct HC as (Hr & Hn & Hi & Hp & He).
  assert (PA : providerAfter w (req st) (IDP st) (IDP st2)).
  { destruct Hp as [-> | [HM ->]]; cbn.
    - split; [repeat split|]. auto.
    - split; [repeat split|]. split; [auto|]. right. split; [exact HM|reflexivity]. }
  assert (SR : sameRequest (req st) (req st1)) by apply sameRequest_refl.
  destruct cerr as [e|].
  { intros E. injection E as <- <-. rewrite Hr.
    repeat match goal with |- _ /\ _ => split end; auto. }
  pose proof (Encrypt_foreign (os w)
                (xmlsec.NewEncryptedDataTemplate
                   "http://www.w3.org/2001/04/xmlenc#aes128-cbc"
                   "http://www.w3.org/2001/04/xmlenc#rsa-oaep-mgf1p")
                (bytesOf signed) spCertFile "aes-128-cbc") as HE.
  destruct (xmlsec.Encrypt _ _ _ _ _) as [encrypted eerr]. cbn [snd] in HE.
  destruct (fatal eerr (IDP st2)).
  { intros E. injection E as <- <-. rewrite Hr.
    repeat match goal with |- _ /\ _ => split end; auto.
    now apply foreign_notMissingDestination. }
  unfold setReq. intros E. injection E as <- <-. cbn [req IDP nowCalls idCalls]. rewrite Hr.
  repeat match goal with |- _ /\ _ => split end; auto.
  intros H. now elim H.
Qed.

Lemma sameRequest_recipient (a b : IdpAuthnRequest.t) :
  sameRequest a b -> assertionRecipient b = assertionRecipient a.
Proof.
  intros (_ & _ & _ & _ & _ & _ & H & _). unfold assertionRecipient. now rewrite H.
Qed.

(** The first step of MakeResponse, with what MarshalAssertion guarantees. *)
Lemma marshalled_state (w : World) (st st' : State) (err : option error) :
  marshalled w st = (err, st') ->
  sameRequest (req st) (req st')
  /\ nowCalls st' = nowCalls st /\ idCalls st' = idCalls st
  /\ providerAfter w (req st) (IDP st) (IDP st')
  /\ notMissingDestination err
  /\ (err <> None -> req st' = req st).
Proof.
  unfold marshalled. destruct (IdpAuthnRequest.AssertionBuffer (req st)).
  - intros E. injection E as <- <-.
    repeat match goal with |- _ /\ _ => split end;
      auto using sameRequest_refl, providerAfter_refl. discriminate.
  - apply MarshalAssertion_state.
Qed.

(** MakeResponse is its first step followed by the assembly. *)
Lemma MakeResponse_unfold (w : World) (st : State) :
  MakeResponse w st =
    match marshalled w st with
    | (Some err, st1) => (Returns (Some err), st1)
    | (None, st1) =>
        match assertionRecipient (req st1) with
        | None => (Panics, st1)
        | Some destination =>
            (Returns (if destination =? ""
                      then Some (fundamental "missing response destination")
                      else None),
             {| IDP := IDP st1;
                req := set_Response (Some
                  {| Response.Destination := destination;
                     Response.ID := NewID w (idCalls st1);
                     Response.InResponseTo :=
                       AuthnRequest.ID (IdpAuthnRequest.Request (req st1));
                     Response.IssueInstant := Now w (nowCalls st1);
                     Response.Version := "2.0";
                     Response.Issuer := Some
                       {| Issuer.Format := "urn:oasis:names:tc:SAML:2.0:nameid-format:entity";
                          Issuer.Value := IdentityProvider.MetadataURL (IDP st1) |};
                     Response.Status := Some
                       {| Status.StatusCode := {| StatusCode.Value := StatusSuccess |} |};
                     Response.EncryptedAssertion := Some
                       {| EncryptedAssertion.EncryptedData :=
                            IdpAuthnRequest.AssertionBuffer (req st1) |} |}) (req st1);
                nowCalls := S (nowCalls st1);
                idCalls := S (idCalls st1) |})
        end
    end.
Proof.
  unfold MakeResponse, marshalled, bind, getReq, getIDP, ret.
  destruct (IdpAuthnRequest.AssertionBuffer (req st)).
  - destruct (assertionRecipient (req st)) as [d|]; [|reflexivity].
    cbn. destruct (d =? ""); reflexivity.
  - destruct (MarshalAssertion w st) as [[err|] st1]; [reflexivity|].
    destruct (assertionRecipient (req st1)) as [d|]; [|reflexivity].
    cbn. destruct (d =? ""); reflexivity.
Qed.

(** C6, as the code has it. For a request whose assertion has a recipient:
    when the assertion buffer is present, or MarshalAssertion succeeds,
    MakeResponse stores a response whose Destination is that recipient, and
    returns the missing-destination error when it is empty and no error
    otherwise; when MarshalAssertion fails, MakeResponse returns its error
    and leaves the Response field as it was. *)
Theorem MakeResponse_destination :
  forall (w : World) (st : State) (recipient : string),
    assertionRecipient (req st) = Some recipient ->
    match fst (marshalled w st) with
    | Some err =>
        MakeResponse w st = (Returns (Some err), snd (marshalled w st))
        /\ IdpAuthnRequest.Response (req (snd (MakeResponse w st)))
           = IdpAuthnRequest.Response (req st)
    | None =>
        fst (MakeResponse w st)
        = Returns (if recipient =? ""
                   then Some (fundamental "missing response destination")
                   else None)
        /\ option_map Response.Destination
             (IdpAuthnRequest.Response (req (snd (MakeResponse w st))))
           = Some recipient
    end.
Proof.
  intros w st recipient HR. rewrite MakeResponse_unfold.
  destruct (marshalled w st) as [err st1] eqn:E.
  apply marshalled_state in E. destruct E as (SR & _).
  rewrite (sameRequest_recipient _ _ SR), HR. cbn [fst snd].
  destruct err as [err|].
  - split; [reflexivity|]. destruct SR as (_ & _ & _ & _ & _ & _ & _ & H). now rewrite H.
  - split; reflexivity.
Qed.

(** The theorem for a request whose recipient is the POST endpoint of the
    metadata. *)
Lemma MakeResponse_destination_witness :
  let st := asserted provider (request (Some spMetadata) "") in
  assertionRecipient (req st) = Some "https://sp.example/post"
  /\ match fst (marshalled quietWorld st) with
     | Some err =>
         MakeResponse quietWorld st = (Returns (Some err), snd (marshalled quietWorld st))
         /\ IdpAuthnRequest.Response (req (snd (MakeResponse quietWorld st)))
            = IdpAuthnRequest.Response (req st)
     | None =>
         fst (MakeResponse quietWorld st)
         = Returns (if "https://sp.example/post" =? ""
                    then Some (fundamental "missing response destination")
                    else None)
         /\ option_map Response.Destination
              (IdpAuthnRequest.Response (req (snd (MakeResponse quietWorld st))))
            = Some "https://sp.example/post"
     end.
Proof.
  intros st.
  assert (H : assertionRecipient (req st) = Some "https://sp.example/post")
    by (vm_compute; reflexivity).
  split; [exact H | exact (MakeResponse_destination quietWorld st _ H)].
Defined.

(** C6 as stated fails: the recipient is not empty, the provider has no
    private key, and MakeResponse fails without assembling a response; and
    with an empty recipient the error of the same provider is not the
    missing-destination error. *)
Lemma MakeResponse_fails_with_recipient :
  let st := asserted keylessProvider (request (Some spMetadata) "") in
  let st0 := asserted keylessProvider (request None "") in
  assertionRecipient (req st) = Some "https://sp.example/post"
  /\ MakeResponse quietWorld st
     = (Returns (Some (fundamental "missing idp private key")), st)
  /\ IdpAuthnRequest.Response (req st) = None
  /\ assertionRecipient (req st0) = Some ""
  /\ fst (MakeResponse quietWorld st0)
     = Returns (Some (fundamental "missing idp private key")).
Proof. vm_compute. repeat split. Qed.

(** C8, as the code has it. MarshalAssertion and MakeResponse leave every
    field of the provider as it was, except SPMetadataURL, which is kept or
    overwritten with the issuer of the request (or the entity ID of its
    metadata), and SPMetadata, which is kept or, when the provider had
    none, filled with the metadata downloaded from that URL. *)
Theorem provider_after_marshal :
  forall (w : World) (st : State),
    providerAfter w (req st) (IDP st) (IDP (snd (MarshalAssertion w st)))
    /\ providerAfter w (req st) (IDP st) (IDP (snd (MakeResponse w st))).
Proof.
  intros w st. split.
  - destruct (MarshalAssertion w st) as [err st1] eqn:E.
    apply MarshalAssertion_state in E. tauto.
  - rewrite MakeResponse_unfold.
    destruct (marshalled w st) as [err st1] eqn:E.
    apply marshalled_state in E. destruct E as (_ & _ & _ & PA & _).
    destruct err; [exact PA|].
    destruct (assertionRecipient (req st1)); exact PA.
Qed.

(** C8 as stated fails: the provider knows nothing of the service provider
    before the call; after MarshalAssertion, and after MakeResponse, its
    SPMetadataURL is the issuer of the request and its SPMetadata is the
    downloaded metadata. *)
Lemma marshal_writes_provider :
  let st := asserted provider (request (Some spMetadata) "") in
  IdentityProvider.SPMetadataURL (IDP st) = ""
  /\ IdentityProvider.SPMetadata (IDP st) = None
  /\ IdentityProvider.SPMetadataURL (IDP (snd (MarshalAssertion quietWorld st)))
     = "https://sp.example/metadata"
  /\ IdentityProvider.SPMetadata (IDP (snd (MarshalAssertion quietWorld st)))
     = Some spMetadata
  /\ IdentityProvider.SPMetadataURL (IDP (snd (MakeResponse quietWorld st)))
     = "https://sp.example/metadata"
  /\ IdentityProvider.SPMetadata (IDP (snd (MakeResponse quietWorld st)))
     = Some spMetadata.
Proof. vm_compute. repeat split. Qed.

(** C10. When MakeResponse returns the missing-destination error, the
    Response field of the request holds a fully populated response: the
    empty Destination, the identifier that NewID gave, the identifier of
    the request, the time that Now gave, version 2.0, the provider's
    metadata URL as issuer, the success status and the assertion buffer as
    encrypted payload. *)
Theorem missing_destination_leaves_response :
  forall (w : World) (st st' : State),
    MakeResponse w st
    = (Returns (Some (fundamental "missing response destination")), st') ->
    IdpAuthnRequest.Response (req st') = Some
      {| Response.Destination := "";
         Response.ID := NewID w (idCalls st);
         Response.InResponseTo := AuthnRequest.ID (IdpAuthnRequest.Request (req st));
         Response.IssueInstant := Now w (nowCalls st);
         Response.Version := "2.0";
         Response.Issuer := Some
           {| Issuer.Format := "urn:oasis:names:tc:SAML:2.0:nameid-format:entity";
              Issuer.Value := IdentityProvider.MetadataURL (IDP st) |};
         Response.Status := Some
           {| Status.StatusCode := {| StatusCode.Value := StatusSuccess |} |};
         Response.EncryptedAssertion := Some
           {| EncryptedAssertion.EncryptedData :=
                IdpAuthnRequest.AssertionBuffer (req st') |} |}.
Proof.
  intros w st st'. rewrite MakeResponse_unfold.
  destruct (marshalled w st) as [err st1] eqn:E.
  apply marshalled_state in E.
  destruct E as (SR & Hn & Hi & (SC & _) & NM & _).
  destruct err as [err|].
  - intros H. injection H as H _. now elim NM; rewrite H.
  - destruct (assertionRecipient (req st1)) as [d|]; [|discriminate].
    destruct (String.eqb_spec d ""); [|discriminate].
    intros H. injection H as <-. subst d. cbn.
    destruct SR as (_ & _ & _ & -> & _).
    destruct SC as (_ & -> & _). rewrite Hn, Hi. reflexivity.
Qed.

(** The theorem for a request whose metadata has no POST endpoint. *)
Lemma missing_destination_leaves_response_witness :
  MakeResponse quietWorld undeliverable
  = (Returns (Some (fundamental "missing response destination")),
     snd (MakeResponse quietWorld undeliverable))
  /\ option_map Response.ID
       (IdpAuthnRequest.Response (req (snd (MakeResponse quietWorld undeliverable))))
     = Some "id-1".
Proof.
  assert (H : MakeResponse quietWorld undeliverable
              = (Returns (Some (fundamental "missing response destination")),
                 snd (MakeResponse quietWorld undeliverable)))
    by (vm_compute; reflexivity).
  split; [exact H|].
  rewrite (missing_destination_leaves_response quietWorld undeliverable _ H).
  vm_compute. reflexivity.
Defined.

End Assembler.

(** ** Further properties of the gateway *)

Section Gateway.

Import strings xmlsec.

(** X1. A diagnostic of the engine is waived by IsSecurityException exactly
    when it does not begin with "OK", contains neither "signature failed"
    nor "validity error", and either contains the self-signed marker while
    AllowSelfSignedCert is set, or contains the unknown-issuer marker but
    not the self-signed one while TrustUnknownAuthority is set. *)
Theorem diagnostic_waived :
  forall (s : string) (opts : saml.SecurityOpts.t),
    saml.IsSecurityException (xmlsecErr s) opts = false
    <-> HasPrefix s "OK" = false
        /\ Contains s "signature failed" = false
        /\ Contains s "validity error" = false
        /\ ((Contains s "msg=self signed certificate" = true
             /\ saml.SecurityOpts.AllowSelfSignedCert opts = true)
            \/ (Contains s "msg=self signed certificate" = false
                /\ Contains s "msg=unable to get local issuer certificate" = true
                /\ saml.SecurityOpts.TrustUnknownAuthority opts = true)).
Proof.
  intros s [allow trust]. unfold xmlsecErr. cbn [Error]. fold (message s).
  rewrite message_signature_failed, message_validity_error,
    message_self_signed, message_unknown_issuer.
  unfold saml.IsSecurityException.
  cbn [saml.SecurityOpts.AllowSelfSignedCert saml.SecurityOpts.TrustUnknownAuthority].
  destruct (HasPrefix s "OK"), (Contains s "signature failed"),
    (Contains s "validity error"), (Contains s "msg=self signed certificate"),
    (Contains s "msg=unable to get local issuer certificate"), allow, trust;
    cbn; intuition congruence.
Qed.

(** X2. xmlsecErr returns no error only for a text that begins with "OK";
    every error it returns, classified or not, has the text "xmlsec: "
    followed by the trimmed diagnostic as its message. *)
Theorem xmlsecErr_message :
  forall s : string,
    match xmlsecErr s with
    | None => HasPrefix s "OK" = true
    | Some err => HasPrefix s "OK" = false /\ Error err = "xmlsec: " ++ TrimSpace s
    end.
Proof.
  intros s. unfold xmlsecErr.
  destruct (HasPrefix s "OK"); [reflexivity|].
  repeat match goal with
         | |- context [if ?b then _ else _] => destruct b
         end; split; reflexivity.
Qed.

(** X3. Encrypt and Decrypt look at the diagnostic stream only when
    cmd.Wait fails: a run whose calls all succeed and whose process exits
    with status 0 gives its output and no error, whatever it wrote on the
    diagnostic stream. *)
Theorem Decrypt_exit_zero :
  forall (os : OS) (template : EncryptedData) (input path method : string),
    let decrypting :=
      exec_Command os "xmlsec1"
        ["--decrypt"; "--privkey-pem"; path; "--output"; "/dev/stdout"; "/dev/stdin"]
        input in
    (delivered decrypting = true -> cmd_Wait decrypting = None ->
     Decrypt os input path = (Some (fst (stdout_ReadAll decrypting)), None))
    /\ (forall cmd, delivered cmd = true -> cmd_Wait cmd = None ->
        Encrypt (always cmd) template input path method
        = (Some (fst (stdout_ReadAll cmd)), None)).
Proof.
  intros os template input path method decrypting.
  assert (R : forall cmd, delivered cmd = true -> cmd_Wait cmd = None ->
                run cmd = (Some (fst (stdout_ReadAll cmd)), None)).
  { intros [pin pout perr start wr cl [res rerr] [resErr eerr] wait].
    unfold delivered, run. cbn. intros D W. subst wait.
    destruct pin, pout, perr, start, wr, cl, rerr, eerr; try discriminate D.
    reflexivity. }
  split.
  - intros D W. unfold Decrypt. now apply R.
  - intros cmd D W. unfold Encrypt. cbn. now apply R.
Qed.

(** The theorem at a run that reports a validity error and exits with
    status 0: Decrypt and Encrypt return the output. *)
Lemma Decrypt_exit_zero_witness :
  Decrypt (always signedWithValidityError) "<EncryptedData/>" "idp.key"
  = (Some "<Assertion/>", None)
  /\ Encrypt (always signedWithValidityError)
       (NewEncryptedDataTemplate "aes" "rsa") "<Assertion/>" "sp.pem" "aes-128-cbc"
     = (Some "<Assertion/>", None).
Proof.
  destruct (Decrypt_exit_zero (always signedWithValidityError)
              (NewEncryptedDataTemplate "aes" "rsa") "<EncryptedData/>" "idp.key"
              "aes-128-cbc") as [HD HE].
  split.
  - exact (HD eq_refl eq_refl).
  - exact (HE signedWithValidityError eq_refl eq_refl).
Defined.

(** X4. With an empty diagnostic stream nothing is classified: when every
    call on the child process succeeded and it wrote no diagnostic, Verify
    returns the error of cmd.Wait as it is (or none), and Sign, Encrypt and
    Decrypt return that error without output, or the output without
    error. *)
Theorem empty_diagnostic_unclassified :
  forall cmd : Process,
    delivered cmd = true ->
    fst (stderr_ReadAll cmd) = "" ->
    Verify_result cmd = failed (cmd_Wait cmd)
    /\ Sign_result cmd
       = match cmd_Wait cmd with
         | Some err => (None, Some (osError err))
         | None => (Some (fst (stdout_ReadAll cmd)), None)
         end
    /\ run cmd = Sign_result cmd.
Proof.
  intros [pin pout perr start wr cl [res rerr] [resErr eerr] wait].
  unfold delivered, Verify_result, Sign_result, run, isValidityError, bytes.Contains.
  cbn. intros D E. subst resErr.
  destruct pin, pout, perr, start, wr, cl, rerr, eerr; try discriminate D.
  destruct wait; cbn; repeat split; reflexivity.
Qed.

(** The theorem at a run that fails with status 1 and writes nothing. *)
Lemma empty_diagnostic_unclassified_witness :
  Verify_result silentFailure = Some (osError "exit status 1")
  /\ Sign_result silentFailure = (None, Some (osError "exit status 1"))
  /\ run silentFailure = Sign_result silentFailure.
Proof.
  exact (empty_diagnostic_unclassified silentFailure eq_refl eq_refl).
Defined.



(** X6. applyOptions uses IDAttrs only under EnableIDAttrHack: without the
    flag the list is ignored; with it, the caller's attributes come last,
    in their order, each behind its own --id-attr:ID flag, after the three
    built-in element names. *)
Theorem applyOptions_IDAttrs :
  forall (args : list string) (dtd : string) (attrs : list string),
    applyOptions args
      (Some {| DTDFile := dtd; EnableIDAttrHack := false; IDAttrs := attrs |})
    = applyOptions args
        (Some {| DTDFile := dtd; EnableIDAttrHack := false; IDAttrs := [] |})
    /\ applyOptions args
         (Some {| DTDFile := dtd; EnableIDAttrHack := true; IDAttrs := attrs |})
       = (applyOptions args
            (Some {| DTDFile := dtd; EnableIDAttrHack := true; IDAttrs := [] |})
          ++ flatten (map (fun v => ("--id-attr:ID", v)) attrs))%list.
Proof.
  intros args dtd attrs. split; [reflexivity|].
  unfold applyOptions. cbn [DTDFile EnableIDAttrHack IDAttrs fold_left].
  now rewrite fold_left_IDAttrs.
Qed.

(** X7. Verify accepts a run exactly when every call on the child process
    succeeded and either the process exited with status 0 without the text
    "validity error" on its diagnostic stream, or the diagnostic stream is
    not empty and the output begins with "OK". *)
Theorem Verify_accepts :
  forall cmd : Process,
    Verify_result cmd = None
    <-> delivered cmd = true
        /\ ((cmd_Wait cmd = None
             /\ Contains (fst (stderr_ReadAll cmd)) "validity error" = false)
            \/ (fst (stderr_ReadAll cmd) <> ""
                /\ HasPrefix (fst (stdout_ReadAll cmd)) "OK" = true)).
Proof.
  intros [pin pout perr start wr cl [res rerr] [resErr eerr] wait].
  unfold delivered, Verify_result, isValidityError, bytes.Contains.
  cbn [cmd_StdinPipe cmd_StdoutPipe cmd_StderrPipe cmd_Start stdin_Write stdin_Close
       stdout_ReadAll stderr_ReadAll cmd_Wait fst snd].
  destruct pin, pout, perr, start, wr, cl, rerr, eerr;
    try (split; [discriminate | intros [D _]; discriminate D]).
  pose proof (xmlsecErr_message (res ++ newline ++ resErr)) as M.
  rewrite HasPrefix_OK_combined in M.
  destruct resErr as [|c resErr].
  - change (Contains "" "validity error") with false.
    destruct wait; cbn [failed option_map orb Nat.ltb Nat.leb length];
      split; try discriminate; intuition congruence.
  - change (0 <? length (String c resErr))%nat with true. cbv iota.
    destruct (xmlsecErr _) as [e|].
    + destruct M as [M _]. rewrite M.
      destruct wait, (Contains (String c resErr) "validity error");
        cbn [failed option_map orb];
        split; try discriminate; intuition congruence.
    + rewrite M.
      destruct wait, (Contains (String c resErr) "validity error");
        cbn [failed option_map orb];
        split; try discriminate; intuition congruence.
Qed.

End Gateway.

(** ** Further properties of the provider *)

Section Provider.

Import saml.





(** What Cert does to the state. *)
Lemma Cert_state (w : World) (st : State) :
  match Cert w st with
  | (inl cert, st') =>
      IdentityProvider.pemCert (IDP st') = Some cert
      /\ req st' = req st /\ nowCalls st' = nowCalls st /\ idCalls st' = idCalls st
      /\ IdentityProvider.MetadataURL (IDP st') = IdentityProvider.MetadataURL (IDP st)
      /\ forall w', Cert w' st' = (inl cert, st')
  | (inr _, st') => st' = st
  end.
Proof.
  unfold Cert, bind, getIDP, setIDP, ret.
  destruct (IdentityProvider.pemCert (IDP st)) as [v|] eqn:P.
  - repeat split; [exact P|]. intros w'. now rewrite P.
  - destruct (PubkeyFile w (IDP st)) as [certFile [err|]]; [reflexivity|].
    destruct (os_Open w certFile); [reflexivity|].
    destruct (ioutil_ReadAll w certFile) as [buf [err|]]; [reflexivity|].
    destruct (pem_Decode w buf) as [cert|]; [|reflexivity].
    repeat split.
Qed.

(** X9. Cert reads the certificate once: after a successful call the
    provider holds the block, and every later call, whatever the file
    system then answers, returns that block and changes nothing; a failed
    call leaves the state as it was. *)
Theorem Cert_cached :
  forall (w : World) (st : State),
    match Cert w st with
    | (inl cert, st') =>
        IdentityProvider.pemCert (IDP st') = Some cert
        /\ forall w', Cert w' st' = (inl cert, st')
    | (inr _, st') => st' = st
    end.
Proof.
  intros w st. pose proof (Cert_state w st) as H.
  destruct (Cert w st) as [[cert|err] st']; [|exact H].
  destruct H as (P & _ & _ & _ & _ & C). now split.
Qed.

(** X10. GetSPMetadata downloads the metadata once: after a successful call
    every later call, whatever the network then answers, returns the same
    metadata and changes nothing; a failed call leaves the state as it
    was. *)
Theorem GetSPMetadata_cached :
  forall (w : World) (st : State),
    match GetSPMetadata w st with
    | (inl m, st') => forall w', GetSPMetadata w' st' = (inl m, st')
    | (inr _, st') => st' = st
    end.
Proof.
  intros w st. unfold GetSPMetadata, bind, getIDP, setIDP, ret.
  destruct (IdentityProvider.SPMetadata (IDP st)) as [m|] eqn:P.
  - intros w'. now rewrite P.
  - destruct (IdentityProvider.SPMetadataURL (IDP st) =? ""); [reflexivity|].
    destruct (http_Get w _); [reflexivity|].
    destruct (http_ReadAll w _) as [buf [err|]]; [reflexivity|].
    destruct (xml_Unmarshal w buf) as [metadata [err|]]; [reflexivity|].
    reflexivity.
Qed.

(** X11. MakeAssertion fails exactly when Cert fails, with the error of
    Cert, and then the state is as it was: once the certificate is held the
    call of Metadata inside MakeAssertion cannot fail.  A successful
    MakeAssertion has called Now five times and NewID once, and the issuer
    of its assertion is the provider's MetadataURL. *)
Theorem MakeAssertion_error :
  forall (w : World) (session : Session.t) (st : State),
    match fst (Cert w st) with
    | inl _ =>
        fst (MakeAssertion w session st) = None
        /\ nowCalls (snd (MakeAssertion w session st)) = 5 + nowCalls st
        /\ idCalls (snd (MakeAssertion w session st)) = 1 + idCalls st
        /\ option_map Assertion.Issuer
             (IdpAuthnRequest.Assertion (req (snd (MakeAssertion w session st))))
           = Some (Some {| Issuer.Format := "XXX";
                           Issuer.Value := IdentityProvider.MetadataURL (IDP st) |})
    | inr err =>
        MakeAssertion w session st = (Some err, st)
    end.
Proof.
  intros w session st. unfold MakeAssertion, bind.
  pose proof (Cert_state w st) as H.
  destruct (Cert w st) as [[cert|err] st1]; cbn [fst].
  - destruct H as (P & R & N & I & U & C).
    unfold Metadata_, bind. rewrite (C w). cbn. rewrite N, I, U. repeat split.
  - subst st1. reflexivity.
Qed.

(** X12. With a clock that never goes back, the assertion of a successful
    MakeAssertion is not valid before it is issued, its conditions hold for
    at least IssueLifetime (90 seconds) from NotBefore, and its subject
    confirmation expires at least IssueLifetime after the issue instant and
    no later than its conditions. *)
Theorem assertion_validity_window :
  forall (w : World) (session : Session.t) (st st' : State),
    (forall n, (Now w n <= Now w (S n))%Z) ->
    MakeAssertion w session st = (None, st') ->
    exists issued confirmedUntil notBefore notOnOrAfter,
      assertionTimes (req st') = Some (issued, confirmedUntil, notBefore, notOnOrAfter)
      /\ (issued <= notBefore)%Z
      /\ (notBefore + IssueLifetime <= notOnOrAfter)%Z
      /\ (issued + IssueLifetime <= confirmedUntil)%Z
      /\ (confirmedUntil <= notOnOrAfter)%Z.
Proof.
  intros w session st st' Mono. unfold MakeAssertion, bind.
  pose proof (Cert_state w st) as H.
  destruct (Cert w st) as [[cert|err] st1]; [|discriminate].
  destruct H as (P & R & N & I & U & C).
  unfold Metadata_, bind. rewrite (C w). cbn. intros E. injection E as <-. cbn.
  do 4 eexists. split; [reflexivity|]. unfold Add.
  pose proof (Mono (S (nowCalls st1))) as M1.
  pose proof (Mono (S (S (nowCalls st1)))) as M2.
  pose proof (Mono (S (S (S (nowCalls st1))))) as M3.
  lia.
Qed.

(** The theorem for the sample request, whose clock advances by one at
    each call. *)
Lemma assertion_validity_window_witness :
  exists issued confirmedUntil notBefore notOnOrAfter,
    assertionTimes (req (asserted provider (request (Some spMetadata) "")))
    = Some (issued, confirmedUntil, notBefore, notOnOrAfter)
    /\ (issued <= notBefore)%Z
    /\ (notBefore + IssueLifetime <= notOnOrAfter)%Z
    /\ (issued + IssueLifetime <= confirmedUntil)%Z
    /\ (confirmedUntil <= notOnOrAfter)%Z.
Proof.
  apply (assertion_validity_window quietWorld alice
           (start provider (request (Some spMetadata) ""))).
  - intros n. change (1000 + Z.of_nat n <= 1000 + Z.of_nat (S n))%Z. lia.
  - vm_compute. reflexivity.
Defined.

End Provider.

(** ** Further properties of the response assembler *)

Section Pipeline.

Import saml.

(** The error is neither of the two kinds that SecurityOpts can waive. *)
Lemma GetSPCertFile_result (w : World) (st : State) :
  match GetSPCertFile w st with
  | (_, Some err, _) =>
      forall e, err <> ErrSelfSignedCertificate e /\ err <> ErrUnknownIssuer e
  | (_, None, st') =>
      IdentityProvider.SPMetadata (IDP st') <> None
      /\ IdentityProvider.SPMetadataURL (IDP st') = IdentityProvider.SPMetadataURL (IDP st)
      /\ IdentityProvider.SecurityOpts (IDP st') = IdentityProvider.SecurityOpts (IDP st)
  end.
Proof.
  unfold GetSPCertFile, GetSPMetadata, bind, getIDP, setIDP, ret.
  assert (K : forall meta (st1 : State),
             IdentityProvider.SPMetadata (IDP st1) <> None ->
             IdentityProvider.SPMetadataURL (IDP st1)
             = IdentityProvider.SPMetadataURL (IDP st) ->
             IdentityProvider.SecurityOpts (IDP st1)
             = IdentityProvider.SecurityOpts (IDP st) ->
             match
               match Metadata.SPSSODescriptor meta with
               | None => fun st0 : State =>
                   ("", Some (fundamental "missing sp sso descriptor"), st0)
               | Some sp =>
                   let cert := encryptionCert (SPSSODescriptor.KeyDescriptor sp) in
                   let cert :=
                     if cert =? "" then anyCert (SPSSODescriptor.KeyDescriptor sp)
                     else cert in
                   if cert =? "" then fun st0 : State =>
                     ("", Some (fundamental "missing sp cert"), st0)
                   else
                     let certBytes := base64_DecodeString w cert in
                     let certBytes :=
                       pem_EncodeToMemory w
                         {| Block.Type_ := "CERTIFICATE"; Block.Bytes := certBytes |} in
                     let (path, err) := writeFile w certBytes in
                     fun st0 : State => (path, failed err, st0)
               end st1
             with
             | (_, Some err, _) =>
                 forall e, err <> ErrSelfSignedCertificate e /\ err <> ErrUnknownIssuer e
             | (_, None, st') =>
                 IdentityProvider.SPMetadata (IDP st') <> None
                 /\ IdentityProvider.SPMetadataURL (IDP st')
                    = IdentityProvider.SPMetadataURL (IDP st)
                 /\ IdentityProvider.SecurityOpts (IDP st')
                    = IdentityProvider.SecurityOpts (IDP st)
             end).
  { intros meta st1 H1 H2 H3.
    destruct (Metadata.SPSSODescriptor meta) as [sp|]; [|split; discriminate].
    cbv zeta. destruct (_ =? ""); [split; discriminate|].
    destruct (writeFile w _) as [path [err|]]; cbn; [split; discriminate|auto]. }
  destruct (IdentityProvider.SPMetadata (IDP st)) as [m|] eqn:P.
  - apply K; [congruence|reflexivity|reflexivity].
  - destruct (IdentityProvider.SPMetadataURL (IDP st) =? ""); [split; discriminate|].
    destruct (http_Get w _); [split; discriminate|].
    destruct (http_ReadAll w _) as [buf [err|]]; [split; discriminate|].
    destruct (xml_Unmarshal w buf) as [metadata [err|]]; [split; discriminate|].
    apply K; [discriminate|reflexivity|reflexivity].
Qed.

Lemma PrivkeyFile_plain (w : World) (idp : IdentityProvider.t) :
  match snd (PrivkeyFile w idp) with
  | Some err => forall e, err <> ErrSelfSignedCertificate e /\ err <> ErrUnknownIssuer e
  | None => True
  end.
Proof.
  unfold PrivkeyFile.
  destruct (negb (IdentityProvider.KeyFile idp =? "")); [exact I|].
  destruct (negb (IdentityProvider.PrivkeyPEM idp =? "")); [|split; discriminate].
  destruct (writeFile w _) as [path [err|]]; cbn; [split; discriminate|exact I].
Qed.

(** The last statement of MarshalAssertion never stores an empty buffer. *)
Lemma TrimSpace_not_empty (b : string) : bytes.TrimSpace b <> Some "".
Proof.
  unfold bytes.TrimSpace. destruct (strings.TrimSpace b); discriminate.
Qed.

(** What a call of MarshalAssertion returns and leaves, by the way it
    ends. *)
Lemma MarshalAssertion_result (w : World) (st : State) :
  match MarshalAssertion w st with
  | (None, st') =>
      IdentityProvider.SPMetadataURL (IDP st') = spMetadataURL (req st)
      /\ IdentityProvider.SPMetadata (IDP st') <> None
      /\ IdpAuthnRequest.AssertionBuffer (req st') <> Some ""
  | (Some err, _) =>
      (forall e, err = ErrSelfSignedCertificate e ->
                 SecurityOpts.AllowSelfSignedCert
                   (IdentityProvider.SecurityOpts (IDP st)) = false)
      /\ (forall e, err = ErrUnknownIssuer e ->
                    SecurityOpts.TrustUnknownAuthority
                      (IdentityProvider.SecurityOpts (IDP st)) = false)
  end.
Proof.
  assert (F : forall (err : option error) (idp : IdentityProvider.t) (st1 : State),
             fatal err idp = true ->
             IdentityProvider.SecurityOpts idp = IdentityProvider.SecurityOpts (IDP st) ->
             match (err, st1) with
             | (None, _) => False
             | (Some err, _) =>
                 (forall e, err = ErrSelfSignedCertificate e ->
                            SecurityOpts.AllowSelfSignedCert
                              (IdentityProvider.SecurityOpts (IDP st)) = false)
                 /\ (forall e, err = ErrUnknownIssuer e ->
                               SecurityOpts.TrustUnknownAuthority
                                 (IdentityProvider.SecurityOpts (IDP st)) = false)
             end).
  { intros [err|] idp st1 H E; [|discriminate]. unfold fatal, IsSecurityException in H.
    rewrite E in H. split; intros e ->; cbn in H.
    - now destruct (SecurityOpts.AllowSelfSignedCert _).
    - now destruct (SecurityOpts.TrustUnknownAuthority _). }
  assert (P : forall err : error,
             (forall e, err <> ErrSelfSignedCertificate e /\ err <> ErrUnknownIssuer e) ->
             (forall e, err = ErrSelfSignedCertificate e ->
                        SecurityOpts.AllowSelfSignedCert
                          (IdentityProvider.SecurityOpts (IDP st)) = false)
             /\ (forall e, err = ErrUnknownIssuer e ->
                           SecurityOpts.TrustUnknownAuthority
                             (IdentityProvider.SecurityOpts (IDP st)) = false)).
  { intros err H. split; intros e E; destruct (H e); contradiction. }
  unfold MarshalAssertion, bind, getReq, getIDP, ret.
  destruct (xml_Marshal w _) as [buf [e|]]; [apply P; split; discriminate|].
  pose proof (PrivkeyFile_plain w (IDP st)) as HP.
  destruct (PrivkeyFile w (IDP st)) as [keyFile [e|]]; [apply P; exact HP|]. clear HP.
  destruct (xmlsec.Sign _ _ _ _) as [signed serr].
  destruct (fatal serr (IDP st)) eqn:FS.
  { specialize (F serr (IDP st) st FS eq_refl). destruct serr; [exact F|contradiction]. }
  unfold setIDP. cbv beta iota.
  match goal with
  | |- context [GetSPCertFile w ?s] => set (st1 := s)
  end.
  pose proof (GetSPCertFile_result w st1) as HC.
  destruct (GetSPCertFile w st1) as [[spCertFile [cerr|]] st2]; [apply P; exact HC|].
  destruct HC as (HM & HU & HS).
  destruct (xmlsec.Encrypt _ _ _ _ _) as [encrypted eerr].
  destruct (fatal eerr (IDP st2)) eqn:FE.
  { specialize (F eerr (IDP st2) st2 FE HS). destruct eerr; [exact F|contradiction]. }
  unfold setReq. cbn. repeat split; auto. apply TrimSpace_not_empty.
Qed.

(** X13. When MarshalAssertion succeeds, the provider's SPMetadataURL is
    the issuer of the request (or the entity ID of its metadata when the
    issuer is empty), the provider holds the metadata of a service
    provider, and the assertion buffer is not an empty slice: it is nil
    when nothing but white space is left of the encrypted output. *)
Theorem MarshalAssertion_success :
  forall (w : World) (st st' : State),
    MarshalAssertion w st = (None, st') ->
    IdentityProvider.SPMetadataURL (IDP st') = spMetadataURL (req st)
    /\ IdentityProvider.SPMetadata (IDP st') <> None
    /\ IdpAuthnRequest.AssertionBuffer (req st') <> Some "".
Proof.
  intros w st st' E. pose proof (MarshalAssertion_result w st) as H.
  now rewrite E in H.
Qed.

(** The theorem for the sample request. *)
Lemma MarshalAssertion_success_witness :
  IdentityProvider.SPMetadataURL (IDP marshalledSample) = "https://sp.example/metadata"
  /\ IdentityProvider.SPMetadata (IDP marshalledSample) <> None
  /\ IdpAuthnRequest.AssertionBuffer (req marshalledSample) <> Some "".
Proof.
  apply (MarshalAssertion_success quietWorld
           (asserted provider (request (Some spMetadata) ""))).
  vm_compute. reflexivity.
Defined.

(** X14. MarshalAssertion never returns an error that the provider's
    SecurityOpts waive: a self-signed-certificate error only when
    AllowSelfSignedCert is not set, an unknown-issuer error only when
    TrustUnknownAuthority is not set. *)
Theorem MarshalAssertion_waived_errors :
  forall (w : World) (st : State) (e : error),
    (fst (MarshalAssertion w st) = Some (ErrSelfSignedCertificate e) ->
     SecurityOpts.AllowSelfSignedCert (IdentityProvider.SecurityOpts (IDP st)) = false)
    /\ (fst (MarshalAssertion w st) = Some (ErrUnknownIssuer e) ->
        SecurityOpts.TrustUnknownAuthority (IdentityProvider.SecurityOpts (IDP st)) = false).
Proof.
  intros w st e. pose proof (MarshalAssertion_result w st) as H.
  destruct (MarshalAssertion w st) as [[err|] st']; cbn [fst].
  - destruct H as [H1 H2]. split; intros E; injection E as ->; eauto.
  - split; discriminate.
Qed.

(** X15. When the assertion buffer is present, MakeResponse runs no
    marshalling: the provider is left as it is, the assertion and its buffer
    are kept, and the payload of the response is that buffer. *)
Theorem MakeResponse_with_buffer :
  forall (w : World) (st : State) (buffer destination : string),
    IdpAuthnRequest.AssertionBuffer (req st) = Some buffer ->
    assertionRecipient (req st) = Some destination ->
    IDP (snd (MakeResponse w st)) = IDP st
    /\ IdpAuthnRequest.Assertion (req (snd (MakeResponse w st)))
       = IdpAuthnRequest.Assertion (req st)
    /\ IdpAuthnRequest.AssertionBuffer (req (snd (MakeResponse w st))) = Some buffer
    /\ responsePayload (req (snd (MakeResponse w st))) = Some (Some buffer).
Proof.
  intros w st buffer destination HB HR.
  unfold MakeResponse, bind, getReq, getIDP, ret. rewrite HB, HR. cbn.
  unfold responsePayload.
  destruct (destination =? ""); cbn; rewrite HB; repeat split.
Qed.

(** The theorem for the sample request after MarshalAssertion. *)
Lemma MakeResponse_with_buffer_witness :
  IDP (snd (MakeResponse quietWorld marshalledSample)) = IDP marshalledSample
  /\ IdpAuthnRequest.Assertion (req (snd (MakeResponse quietWorld marshalledSample)))
     = IdpAuthnRequest.Assertion (req marshalledSample)
  /\ IdpAuthnRequest.AssertionBuffer (req (snd (MakeResponse quietWorld marshalledSample)))
     = Some "<EncryptedData/>"
  /\ responsePayload (req (snd (MakeResponse quietWorld marshalledSample)))
     = Some (Some "<EncryptedData/>").
Proof.
  apply (MakeResponse_with_buffer quietWorld marshalledSample
           "<EncryptedData/>" "https://sp.example/post");
    vm_compute; reflexivity.
Defined.

(** X16. MakeResponse on a request that has no assertion (or an assertion
    without subject confirmation) panics on the nil pointer once the
    marshalling step has passed, and no response is stored. *)
Theorem MakeResponse_without_assertion :
  forall (w : World) (st : State),
    assertionRecipient (req st) = None ->
    fst (marshalled w st) = None ->
    fst (MakeResponse w st) = Panics
    /\ IdpAuthnRequest.Response (req (snd (MakeResponse w st)))
       = IdpAuthnRequest.Response (req st).
Proof.
  intros w st HR HM. rewrite MakeResponse_unfold.
  destruct (marshalled w st) as [err st1] eqn:E. cbn [fst] in HM. subst err.
  apply marshalled_state in E. destruct E as (SR & _).
  rewrite (sameRequest_recipient _ _ SR), HR. cbn [fst snd].
  split; [reflexivity|]. destruct SR as (_ & _ & _ & _ & _ & _ & _ & H). now rewrite H.
Qed.

(** The theorem for the sample request before MakeAssertion. *)
Lemma MakeResponse_without_assertion_witness :
  fst (MakeResponse quietWorld (start provider (request (Some spMetadata) ""))) = Panics
  /\ IdpAuthnRequest.Response
       (req (snd (MakeResponse quietWorld (start provider (request (Some spMetadata) "")))))
     = None.
Proof.
  apply (MakeResponse_without_assertion quietWorld
           (start provider (request (Some spMetadata) "")));
    vm_compute; reflexivity.
Defined.

(** X17. Once the provider holds the metadata of a service provider,
    GetSPCertFile no longer looks at SPMetadataURL nor at the network: for
    every URL written there (as MarshalAssertion does for each request) the
    certificate file and the error are the same, and the state is left as
    it is. *)
Theorem GetSPCertFile_ignores_URL :
  forall (w : World) (st : State) (m : Metadata.t) (url : string),
    IdentityProvider.SPMetadata (IDP st) = Some m ->
    GetSPCertFile w (withSPMetadataURL url st)
    = (fst (GetSPCertFile w st), withSPMetadataURL url st)
    /\ snd (GetSPCertFile w st) = st.
Proof.
  intros w st m url HM.
  unfold GetSPCertFile, GetSPMetadata, bind, getIDP, ret, withSPMetadataURL.
  cbn [IDP set_SPMetadataURL IdentityProvider.SPMetadata]. rewrite HM.
  destruct (Metadata.SPSSODescriptor m) as [sp|]; [|split; reflexivity].
  cbv zeta. destruct (_ =? ""); [split; reflexivity|].
  destruct (writeFile w _) as [path [err|]]; split; reflexivity.
Qed.

(** The theorem for the sample request after MarshalAssertion, and the URL
    of another service provider. *)
Lemma GetSPCertFile_ignores_URL_witness :
  GetSPCertFile quietWorld (withSPMetadataURL "https://other.example/metadata" marshalledSample)
  = (fst (GetSPCertFile quietWorld marshalledSample),
     withSPMetadataURL "https://other.example/metadata" marshalledSample)
  /\ snd (GetSPCertFile quietWorld marshalledSample) = marshalledSample.
Proof.
  apply (GetSPCertFile_ignores_URL quietWorld marshalledSample spMetadata
           "https://other.example/metadata").
  vm_compute. reflexivity.
Defined.

(** X18. For a provider that holds no metadata and has a URL, GetSPMetadata
    succeeds exactly when GetMetadata succeeds on that URL, with the same
    metadata, which it then stores in the provider. *)
Theorem GetSPMetadata_GetMetadata :
  forall (w : World) (st : State),
    IdentityProvider.SPMetadata (IDP st) = None ->
    IdentityProvider.SPMetadataURL (IDP st) <> "" ->
    match GetMetadata w (IdentityProvider.SPMetadataURL (IDP st)) with
    | inl m => GetSPMetadata w st = (inl m, withSPMetadata m st)
    | inr _ => exists err, GetSPMetadata w st = (inr (osError err), st)
    end.
Proof.
  intros w st HM HU.
  unfold GetMetadata, GetSPMetadata, bind, getIDP, setIDP, ret, withSPMetadata.
  rewrite HM. destruct (String.eqb_spec (IdentityProvider.SPMetadataURL (IDP st)) "");
    [contradiction|].
  destruct (http_Get w _); [eauto|].
  destruct (http_ReadAll w _) as [buf [err|]]; [eauto|].
  destruct (xml_Unmarshal w buf) as [metadata [err|]]; [eauto|].
  reflexivity.
Qed.

(** The theorem for the sample provider, with the URL of the service
    provider. *)
Lemma GetSPMetadata_GetMetadata_witness :
  GetSPMetadata quietWorld
    (withSPMetadataURL "https://sp.example/metadata" (start provider (request None "")))
  = (inl spMetadata,
     withSPMetadata spMetadata
       (withSPMetadataURL "https://sp.example/metadata" (start provider (request None "")))).
Proof.
  apply (GetSPMetadata_GetMetadata quietWorld
           (withSPMetadataURL "https://sp.example/metadata"
              (start provider (request None "")))).
  - reflexivity.
  - discriminate.
Defined.

(** X19. When MarshalAssertion returns an error the request is exactly as
    it was (no assertion buffer is stored), and neither the clock nor the
    identifier generator has been called; the same holds for MakeResponse,
    which then stores no response. *)
Theorem MarshalAssertion_failure :
  forall (w : World) (st st' : State) (err : error),
    MarshalAssertion w st = (Some err, st') ->
    req st' = req st /\ nowCalls st' = nowCalls st /\ idCalls st' = idCalls st
    /\ (IdpAuthnRequest.AssertionBuffer (req st) = None ->
        MakeResponse w st = (Returns (Some err), st')).
Proof.
  intros w st st' err E. pose proof (MarshalAssertion_state w st st' _ E) as H.
  destruct H as (_ & Hn & Hi & _ & _ & Hr).
  repeat split; auto.
  - apply Hr. discriminate.
  - intros HB. rewrite MakeResponse_unfold. unfold marshalled. now rewrite HB, E.
Qed.

(** The theorem for the provider without a private key. *)
Lemma MarshalAssertion_failure_witness :
  let st := asserted keylessProvider (request (Some spMetadata) "") in
  MarshalAssertion quietWorld st = (Some (fundamental "missing idp private key"), st)
  /\ MakeResponse quietWorld st = (Returns (Some (fundamental "missing idp private key")), st).
Proof.
  intros st.
  assert (E : MarshalAssertion quietWorld st
              = (Some (fundamental "missing idp private key"), st))
    by (vm_compute; reflexivity).
  split; [exact E|].
  destruct (MarshalAssertion_failure quietWorld st st _ E) as (_ & _ & _ & H).
  apply H. vm_compute. reflexivity.
Defined.

End Pipeline.
